(** * AloeMate: card-calibrated leaf measurement (apps/server/app/api/harvest.py)

    A shallow embedding of the geometric core of the harvest API:
    [order_points], [apply_quad_warp], [detect_credit_card] and the
    [/harvest/measure_length] handler [measure_leaf_length].

    Numbers.  The Python code computes with binary64 floats, and with
    float32 inside [order_points] and [apply_quad_warp].  The development
    has two levels.

    In the main model a float is idealised as a real number: [+ - * /] and
    [np.sqrt] are the exact operations on [R], [round(x, 1)] is rounding to
    the nearest tenth with ties to the even tenth, and [int(x)] is
    truncation toward zero.  Comparisons are the decidable order of [R].
    The results on output sizes, on the comparison of a curve with a
    straight trace, on the confidence thresholds and on the aggregation of
    the rounded lengths are stated so that they do not depend on the last
    bits of a float: on whole-number pixel coordinates of bounded size (see
    [on_pixel_grid]), with a strict comparison or a margin where the last
    bits decide, and without fixing the direction in which [round] breaks a
    tie.  The other results hold for the idealised arithmetic.

    The module [Binary64] follows the arithmetic of [measure_leaf_length]
    on binary64 floats themselves, with the primitive floats of the prover.
    It is used to run the handler on concrete requests on which rounding
    decides. *)

From Stdlib Require Import Floats.PrimFloat.
From Stdlib Require Floats.SpecFloat Floats.FloatOps Uint63.
From Stdlib Require Import Reals Lra Lia ZArith List Permutation Sorting.Sorted.
From Stdlib Require String.
Import ListNotations.

Local Open Scope R_scope.
Local Set Warnings "-inexact-float".

(** ** Numeric helpers *)

(** [int(x)] on a float: truncation toward zero. *)
Definition py_int (x : R) : Z :=
  if Rle_dec 0 x then Int_part x else (- Int_part (- x))%Z.

(** Nearest integer, ties to even: the rounding mode of Python's [round]. *)
Definition round_half_even (y : R) : Z :=
  let f := Int_part y in
  let r := y - IZR f in
  if Rlt_dec r (1 / 2) then f
  else if Rlt_dec (1 / 2) r then (f + 1)%Z
  else if Z.even f then f else (f + 1)%Z.

(** [round(x, 1)]. *)
Definition round1 (x : R) : R := IZR (round_half_even (x * 10)) / 10.

(** [max(a, b)] of Python on two floats: [b] only when it is strictly larger. *)
Definition py_max (a b : R) : R := if Rlt_dec a b then b else a.

(** [sum(l)] over a list of floats. *)
Definition py_sum (l : list R) : R := fold_left Rplus l 0.

(** ** Points *)

(** A point as the JSON payload has it, [{'x': .., 'y': ..}], or a row
    [[x, y]] of a numpy array. *)
Record point : Type := mkPoint { px : R; py : R }.

(** [np.sqrt((q.x - p.x) ** 2 + (q.y - p.y) ** 2)], also
    [np.linalg.norm(q - p)]. *)
Definition distance (p q : point) : R :=
  sqrt ((px q - px p) ^ 2 + (py q - py p) ^ 2).

(** ** Errors *)

(** The exceptions the modelled code raises, one constructor per [raise]. *)
Inductive error : Type :=
| ExpectedFourPoints (got : nat)
    (* order_points: ValueError(f"Expected 4 points, got {len(pts)}") *)
| CardCornersCount
    (* ValueError("card_corners must contain exactly 4 points") *)
| LeafCountOutOfRange
    (* ValueError("Must provide 1-3 leaf measurements") *)
| LeafTooFewPoints (leaf_no : nat)
    (* ValueError(f"Leaf {i+1} must have at least 3 points for curve tracing") *)
| CropQuadCount
    (* ValueError("crop_quad must contain exactly 4 points") *)
| ImageDecodeFailed
    (* HTTPException(status_code=400, detail="Failed to decode image") *)
| InvalidCardCalibration.
    (* ValueError("Invalid card calibration: card width cannot be zero") *)

Inductive result (A : Type) : Type :=
| Ok (a : A)
| Err (e : error).
Arguments Ok {A} a.
Arguments Err {A} e.

Definition bind {A B : Type} (r : result A) (k : A -> result B) : result B :=
  match r with
  | Ok a => k a
  | Err e => Err e
  end.

Notation "x <- r ;; k" := (bind r (fun x => k))
  (at level 61, r at next level, right associativity).

(** ** order_points *)

(** [np.argmin] on a one-dimensional array: the index of the first
    occurrence of the minimum.  [best] is the running minimum, found at
    index [bi]; [i] is the index of the head of [l]. *)
Fixpoint argmin_from (best : R) (bi i : nat) (l : list R) : nat :=
  match l with
  | [] => bi
  | x :: t =>
      if Rlt_dec x best then argmin_from x i (S i) t
      else argmin_from best bi (S i) t
  end.

Definition argmin (l : list R) : nat :=
  match l with
  | [] => 0%nat
  | x :: t => argmin_from x 0 1 t
  end.

(** [np.argmax]: the index of the first occurrence of the maximum. *)
Fixpoint argmax_from (best : R) (bi i : nat) (l : list R) : nat :=
  match l with
  | [] => bi
  | x :: t =>
      if Rlt_dec best x then argmax_from x i (S i) t
      else argmax_from best bi (S i) t
  end.

Definition argmax (l : list R) : nat :=
  match l with
  | [] => 0%nat
  | x :: t => argmax_from x 0 1 t
  end.

(** [pts.sum(axis=1)]: x + y of a row. *)
Definition pt_sum (p : point) : R := px p + py p.

(** [np.diff(pts, axis=1)]: y - x of a row. *)
Definition pt_diff (p : point) : R := py p - px p.

Definition origin : point := mkPoint 0 0.

(** [pts[i]] for an index that [argmin]/[argmax] returned. *)
Definition row (pts : list point) (i : nat) : point := nth i pts origin.

(** The array [[tl, tr, br, bl]] that [order_points] returns. *)
Record quad : Type := mkQuad { tl : point; tr : point; br : point; bl : point }.

Definition order_points (pts : list point) : result quad :=
  if Nat.eqb (length pts) 4 then
    let s := map pt_sum pts in
    let diff := map pt_diff pts in
    Ok {| tl := row pts (argmin s);
          tr := row pts (argmin diff);
          br := row pts (argmax s);
          bl := row pts (argmax diff) |}
  else Err (ExpectedFourPoints (length pts)).

(** ** The OpenCV interface

    The code calls into [cv2] for image decoding results, the homography,
    resampling and contour extraction.  None of that is code of this
    repository; it is taken as an interface of total functions. *)
Class OpenCV (image matrix contour : Type) : Type := {
  getPerspectiveTransform : quad -> quad -> matrix;
  warpPerspective : image -> matrix -> Z * Z -> image;
  cvtColor_gray : image -> image;            (* cv2.COLOR_BGR2GRAY *)
  GaussianBlur : image -> nat * nat -> R -> image;
  Canny : image -> R -> R -> image;
  findContours_external : image -> list contour;
  contourArea : contour -> R;
  arcLength : contour -> bool -> R;
  approxPolyDP : contour -> R -> bool -> list point;
  boundingRect : list point -> Z * Z * Z * Z
}.

(** [sorted(xs, key=key, reverse=True)]: a stable sort, largest key first;
    elements with equal keys keep their original relative order. *)
Section SortedReverse.
Context {A : Type} (key : A -> R).

Fixpoint insert_desc (c : A) (l : list A) : list A :=
  match l with
  | [] => [c]
  | d :: t =>
      if Rlt_dec (key c) (key d) then d :: insert_desc c t
      else c :: d :: t
  end.

Definition sorted_reverse (l : list A) : list A :=
  fold_right insert_desc [] l.
End SortedReverse.

(** Credit card aspect ratio (width/height), about 1.586, and its tolerance. *)
Definition TARGET_ASPECT_RATIO : R := 85.60 / 53.98.
Definition ASPECT_RATIO_TOLERANCE : R := 0.3.

(** The destination rectangle [dst_points] of [apply_quad_warp]:
    [[0, 0], [w - 1, 0], [w - 1, h - 1], [0, h - 1]]. *)
Definition dst_rectangle (max_width max_height : Z) : quad :=
  {| tl := mkPoint 0 0;
     tr := mkPoint (IZR (max_width - 1)) 0;
     br := mkPoint (IZR (max_width - 1)) (IZR (max_height - 1));
     bl := mkPoint 0 (IZR (max_height - 1)) |}.

Section Vision.
Context {image matrix contour : Type} {cv : OpenCV image matrix contour}.

(** *** apply_quad_warp *)
Definition apply_quad_warp (img : image) (quad_points : list point)
  : result image :=
  ordered <- order_points quad_points ;;
  let width_top := distance (tl ordered) (tr ordered) in
  let width_bottom := distance (bl ordered) (br ordered) in
  let max_width := py_int (py_max width_top width_bottom) in
  let height_left := distance (tl ordered) (bl ordered) in
  let height_right := distance (tr ordered) (br ordered) in
  let max_height := py_int (py_max height_left height_right) in
  let dst_points := dst_rectangle max_width max_height in
  let transform_matrix := getPerspectiveTransform ordered dst_points in
  Ok (warpPerspective img transform_matrix (max_width, max_height)).

(** *** detect_credit_card *)

(** The body of [for contour in contours[:10]]; falling off the end of
    the loop is [return None]. *)
Fixpoint detect_loop (contours : list contour) : result (option quad) :=
  match contours with
  | [] => Ok None
  | c :: rest =>
      let peri := arcLength c true in
      let approx := approxPolyDP c (0.02 * peri) true in
      if Nat.eqb (length approx) 4 then
        let '(_, _, w, h) := boundingRect approx in
        let aspect_ratio := if Z.ltb 0 h then IZR w / IZR h else 0 in
        if Rlt_dec (Rabs (aspect_ratio - TARGET_ASPECT_RATIO))
                   ASPECT_RATIO_TOLERANCE
        then rect <- order_points approx ;; Ok (Some rect)
        else detect_loop rest
      else detect_loop rest
  end.

Definition detect_credit_card (img : image) : result (option quad) :=
  let gray := cvtColor_gray img in
  let blurred := GaussianBlur gray (5%nat, 5%nat) 0 in
  let edges := Canny blurred 50 150 in
  let contours := findContours_external edges in
  let contours := sorted_reverse contourArea contours in
  detect_loop (firstn 10 contours).
End Vision.

(** ** measure_leaf_length *)

Definition L1 : R := 18.0.   (* MATURITY_CONFIG["L1"] *)
Definition L2 : R := 25.0.   (* MATURITY_CONFIG["L2"] *)

Definition CARD_WIDTH_MM : R := 85.60.
Definition CARD_HEIGHT_MM : R := 53.98.

(** One entry of [leaf_measurements]: [{'points': [...]}] (curve tracing) or
    [{'base': .., 'tip': ..}] (straight line). *)
Inductive leaf : Type :=
| LeafPoints (points : list point)
| LeafBaseTip (base tip : point).

Inductive maturity : Type := NOT_MATURE | INTERMEDIATE | MATURE.
Inductive confidence : Type := HIGH | MEDIUM | LOW.

(** The two texts of [retake_message]. *)
Inductive retake_text : Type :=
| OnlyOneLeaf
    (* "Only 1 leaf measured. Measure 3 leaves for better accuracy." *)
| HighVariation.
    (* "High variation between measurements. Try: ..." *)

Record response : Type := mkResponse {
  leaf_lengths_cm : list R;
  avg_leaf_length_cm : R;
  stage : maturity;
  confidence_status : confidence;
  retake_message : option retake_text
}.

(** The validation loop [for i, leaf in enumerate(leaf_data)]; [i] is the
    index of the head of the list.  Points are typed here, so the checks of
    the ['x'] and ['y'] keys cannot fail. *)
Fixpoint validate_leaves (i : nat) (leaf_data : list leaf) : result unit :=
  match leaf_data with
  | [] => Ok tt
  | LeafPoints points :: rest =>
      if Nat.ltb (length points) 3 then Err (LeafTooFewPoints (i + 1))
      else validate_leaves (S i) rest
  | LeafBaseTip _ _ :: rest => validate_leaves (S i) rest
  end.

(** The inner loop [for i in range(len(points) - 1)] with its accumulator
    [pixel_distance], started at 0.0. *)
Definition curve_distance (points : list point) : R :=
  fold_left
    (fun pixel_distance i =>
       pixel_distance + distance (row points i) (row points (i + 1)))
    (seq 0 (length points - 1)) 0.

Definition pixel_distance (l : leaf) : R :=
  match l with
  | LeafPoints points => curve_distance points
  | LeafBaseTip base tip => distance base tip
  end.

(** Lines "Determine maturity stage". *)
Definition maturity_stage (avg : R) : maturity :=
  if Rle_dec L2 avg then MATURE
  else if Rle_dec L1 avg then INTERMEDIATE
  else NOT_MATURE.

(** [np.sqrt(sum((x - mean) ** 2 for x in xs) / len(xs))]. *)
Definition std_dev_about (mean : R) (xs : list R) : R :=
  sqrt (py_sum (map (fun x => (x - mean) ^ 2) xs) / INR (length xs)).

(** Lines "Calculate confidence based on measurement consistency". *)
Definition confidence_of (lengths : list R) (avg : R)
  : confidence * option retake_text :=
  if Nat.eqb (length lengths) 1 then (LOW, Some OnlyOneLeaf)
  else if Nat.leb 2 (length lengths) then
    let std_dev := std_dev_about avg lengths in
    if Rle_dec 4 std_dev then (LOW, Some HighVariation)
    else if Rle_dec 2 std_dev then (MEDIUM, None)
    else (HIGH, None)
  else (HIGH, None).

Section Measure.
Context {image matrix contour : Type} {cv : OpenCV image matrix contour}.

(** The handler after its JSON inputs are parsed.  [img] is the result of
    [cv2.imdecode] ([None] when the bytes do not decode); [crop_quad] is
    [None] when the form field is absent. *)
Definition measure_leaf_length
    (img : option image) (crop_quad : option (list point))
    (card_data : list point) (leaf_data : list leaf) : result response :=
  if negb (Nat.eqb (length card_data) 4) then Err CardCornersCount
  else if (Nat.ltb (length leaf_data) 1 || Nat.ltb 3 (length leaf_data))%bool
  then Err LeafCountOutOfRange
  else
    _ <- validate_leaves 0 leaf_data ;;
    _ <- match crop_quad with
         | Some crop_data =>
             if negb (Nat.eqb (length crop_data) 4) then Err CropQuadCount
             else match img with
                  | None => Err ImageDecodeFailed
                  | Some im => _ <- apply_quad_warp im crop_data ;; Ok tt
                  end
         | None => Ok tt
         end ;;
    let card_width_pixels := distance (row card_data 0) (row card_data 1) in
    let pixels_per_mm := card_width_pixels / CARD_WIDTH_MM in
    if Rle_dec pixels_per_mm 0 then Err InvalidCardCalibration
    else
      let leaf_lengths_cm :=
        map (fun l => round1 (pixel_distance l / pixels_per_mm / 10.0))
            leaf_data in
      let avg_leaf_length_cm :=
        round1 (py_sum leaf_lengths_cm / INR (length leaf_lengths_cm)) in
      let '(confidence_status, retake_message) :=
        confidence_of leaf_lengths_cm avg_leaf_length_cm in
      Ok {| leaf_lengths_cm := leaf_lengths_cm;
            avg_leaf_length_cm := avg_leaf_length_cm;
            stage := maturity_stage avg_leaf_length_cm;
            confidence_status := confidence_status;
            retake_message := retake_message |}.
End Measure.

(** ** Specification-side notions *)

(** A key attains its minimum (maximum) over [pts] at one point only. *)
Definition unique_min (key : point -> R) (pts : list point) : Prop :=
  forall p q, In p pts -> In q pts ->
    (forall r, In r pts -> key p <= key r) ->
    (forall r, In r pts -> key q <= key r) -> p = q.

Definition unique_max (key : point -> R) (pts : list point) : Prop :=
  forall p q, In p pts -> In q pts ->
    (forall r, In r pts -> key r <= key p) ->
    (forall r, In r pts -> key r <= key q) -> p = q.

(** No two distinct corners tie for the smallest or largest x + y, nor for
    the smallest or largest y - x. *)
Definition no_extreme_ties (pts : list point) : Prop :=
  unique_min pt_sum pts /\ unique_max pt_sum pts /\
  unique_min pt_diff pts /\ unique_max pt_diff pts.

(** Length of the polyline through [points]: the sum of the Euclidean
    distances between consecutive points. *)
Fixpoint polyline_length (points : list point) : R :=
  match points with
  | p :: (q :: _) as rest => distance p q + polyline_length rest
  | _ => 0
  end.


(** Arithmetic mean and population standard deviation of a sample. *)
Definition mean (xs : list R) : R := py_sum xs / INR (length xs).


(** The confidence rule of the specification, on the number of leaves and
    the dispersion of their lengths. *)
Definition confidence_rule (count : nat) (sigma : R)
  : confidence * option retake_text :=
  if Nat.eqb count 1 then (LOW, Some OnlyOneLeaf)
  else if Rle_dec 4 sigma then (LOW, Some HighVariation)
  else if Rle_dec 2 sigma then (MEDIUM, None)
  else (HIGH, None).

(** A value with one decimal place. *)
Definition one_decimal (x : R) : Prop := exists n : Z, x = IZR n / 10.


(** The sum of a list, term by term. *)
Definition total (xs : list R) : R := fold_right Rplus 0 xs.

(** A marked point on the pixel grid of an image of at most [side] pixels a
    side: both coordinates are whole numbers between 0 and [side].  On
    such points the idealised arithmetic is that of the floats: up to
    [side = 2048] the float32 sums and differences of [order_points] are
    exact and the float32 norms of [apply_quad_warp] truncate to the same
    whole number as the exact norms; up to [side = 65536] the squared
    distances are exact in binary64 and each distance is the exact one
    rounded once. *)
Definition on_pixel_grid (side : Z) (p : point) : Prop :=
  exists i j : Z,
    (0 <= i <= side)%Z /\ (0 <= j <= side)%Z /\ p = mkPoint (IZR i) (IZR j).

(** The detector in the words of the specification. *)
Section DetectorSpec.
Context {image matrix contour : Type} {cv : OpenCV image matrix contour}.

(** The polygon approximation of a contour. *)
Definition approx_polygon (c : contour) : list point :=
  approxPolyDP c (0.02 * arcLength c true) true.

(** A candidate: a 4-vertex approximation whose upright bounding box has
    an aspect ratio w/h within the tolerance of the card's. *)
Definition card_like (c : contour) : Prop :=
  length (approx_polygon c) = 4%nat /\
  let '(_, _, w, h) := boundingRect (approx_polygon c) in
  (0 < h)%Z /\
  Rabs (IZR w / IZR h - 85.60 / 53.98) < 0.3.

(** The external contours of the edge image. *)
Definition edge_contours (img : image) : list contour :=
  findContours_external
    (Canny (GaussianBlur (cvtColor_gray img) (5%nat, 5%nat) 0) 50 150).

(** Largest area first. *)
Definition area_desc (c d : contour) : Prop := contourArea d <= contourArea c.
End DetectorSpec.

(** ** Example inputs *)

(** A square standing on a corner (a rectangle rotated by 45 degrees). *)
Definition diamond : list point :=
  [mkPoint 1 0; mkPoint 0 1; mkPoint 2 1; mkPoint 1 2].
Definition diamond_swapped : list point :=
  [mkPoint 0 1; mkPoint 1 0; mkPoint 2 1; mkPoint 1 2].

(** The axis-aligned rectangle spanning [x0,x1] x [y0,y1], corners in the
    order top-left, top-right, bottom-right, bottom-left. *)
Definition rect_corners (x0 y0 x1 y1 : R) : list point :=
  [mkPoint x0 y0; mkPoint x1 y0; mkPoint x1 y1; mkPoint x0 y1].

(** ** A symbolic OpenCV

    An instance of the interface on which the model runs on concrete
    inputs: an image is a photo with the contours its edges would give, and
    every operation records what it was asked to do. *)
Record demo_contour : Type := mkContour {
  dc_area : R;
  dc_perimeter : R;
  dc_polygon : list point
}.

Inductive demo_image : Type :=
| Photo (contours : list demo_contour)
| Filtered (i : demo_image)
| Warped (i : demo_image) (src dst : quad) (dsize : Z * Z).

Fixpoint demo_contours (i : demo_image) : list demo_contour :=
  match i with
  | Photo cs => cs
  | Filtered i => demo_contours i
  | Warped _ _ _ _ => []
  end.

(** The upright bounding box of integer points, as [cv2.boundingRect]
    gives it: [(x, y, w, h)] with [w = max x - min x + 1]. *)
Definition demo_boundingRect (pts : list point) : Z * Z * Z * Z :=
  match pts with
  | [] => (0, 0, 0, 0)%Z
  | p :: t =>
      let x0 := Int_part (fold_right Rmin (px p) (map px t)) in
      let x1 := Int_part (fold_right Rmax (px p) (map px t)) in
      let y0 := Int_part (fold_right Rmin (py p) (map py t)) in
      let y1 := Int_part (fold_right Rmax (py p) (map py t)) in
      (x0, y0, x1 - x0 + 1, y1 - y0 + 1)%Z
  end.

#[export] Instance demo_cv : OpenCV demo_image (quad * quad) demo_contour := {|
  getPerspectiveTransform := pair;
  warpPerspective := fun i m dsize => Warped i (fst m) (snd m) dsize;
  cvtColor_gray := Filtered;
  GaussianBlur := fun i _ _ => Filtered i;
  Canny := fun i _ _ => Filtered i;
  findContours_external := demo_contours;
  contourArea := dc_area;
  arcLength := fun c _ => dc_perimeter c;
  approxPolyDP := fun c _ _ => dc_polygon c;
  boundingRect := demo_boundingRect
|}.

(** The crop rectangle of the shuffled-points test, and a shuffle of it. *)
Definition square_100_300 : list point := rect_corners 100 100 300 300.
Definition square_shuffled : list point :=
  [mkPoint 300 300; mkPoint 100 100; mkPoint 300 100; mkPoint 100 300].

(** A crop rectangle whose sides are not whole numbers of pixels. *)
Definition frac_rect : list point := rect_corners 0 0 100.75 50.75.
Definition frac_quad : quad :=
  {| tl := mkPoint 0 0; tr := mkPoint 100.75 0;
     br := mkPoint 100.75 50.75; bl := mkPoint 0 50.75 |}.

(** A quadrilateral collapsed onto one pixel. *)
Definition collapsed : list point :=
  [mkPoint 5 5; mkPoint 5 5; mkPoint 5 5; mkPoint 5 5].
Definition collapsed_quad : quad :=
  {| tl := mkPoint 5 5; tr := mkPoint 5 5; br := mkPoint 5 5; bl := mkPoint 5 5 |}.

(** A reference card photographed at 10 pixels per millimetre, its
    corners listed top-left, top-right, bottom-right, bottom-left; the same
    four corners listed top-left, bottom-left, bottom-right, top-right; and
    the first list with its first two corners exchanged. *)
Definition card_ordered : list point :=
  [mkPoint 0 0; mkPoint 856 0; mkPoint 856 540; mkPoint 0 540].
Definition card_relisted : list point :=
  [mkPoint 0 0; mkPoint 0 540; mkPoint 856 540; mkPoint 856 0].

(** One leaf marked base to tip over 1200 pixels. *)
Definition leaf_1200 : list leaf :=
  [LeafBaseTip (mkPoint 0 0) (mkPoint 1200 0)].

Definition response_19cm : response :=
  {| leaf_lengths_cm := [19]; avg_leaf_length_cm := 19;
     stage := INTERMEDIATE; confidence_status := LOW;
     retake_message := Some OnlyOneLeaf |}.

(** A request without image bytes that decode and without crop. *)
Definition no_image : option demo_image := None.

(** Two leaves on the example card: one traced as a curve through three
    points (500 + 1000 pixels), one marked base to tip over 1724 pixels. *)
Definition traced_curve : list point :=
  [mkPoint 0 0; mkPoint 300 400; mkPoint 300 1400].
Definition two_leaves : list leaf :=
  [LeafPoints traced_curve; LeafBaseTip (mkPoint 0 0) (mkPoint 1724 0)].
Definition response_two_leaves : response :=
  {| leaf_lengths_cm := [15; 17.2]; avg_leaf_length_cm := 16.1;
     stage := NOT_MATURE; confidence_status := HIGH;
     retake_message := None |}.




(** A photo with two closed outlines: a credit card of 171 by 107 pixels,
    its corners found in no particular order, and a larger square frame. *)
Definition card_outline : demo_contour :=
  {| dc_area := 18297; dc_perimeter := 556;
     dc_polygon := [mkPoint 271 207; mkPoint 100 100;
                    mkPoint 271 100; mkPoint 100 207] |}.
Definition frame_outline : demo_contour :=
  {| dc_area := 40000; dc_perimeter := 800;
     dc_polygon := rect_corners 300 300 500 500 |}.
Definition photo_with_card : demo_image := Photo [card_outline; frame_outline].
Definition detected_card : quad :=
  {| tl := mkPoint 100 100; tr := mkPoint 271 100;
     br := mkPoint 271 207; bl := mkPoint 100 207 |}.

(** ** The rule-based assessment: [/harvest/assess]

    Texts are represented by the case that selects them: each status,
    gel estimate, maturity level, action and recommendation below stands for
    the fixed string the code returns in that case. *)

(** [round(x, 2)]. *)
Definition round2 (x : R) : R := IZR (round_half_even (x * 100)) / 100.

(** [min(a, b)] of Python on two floats: [b] only when it is strictly smaller. *)
Definition py_min (a b : R) : R := if Rlt_dec b a then b else a.

(** [max(xs)] and [min(xs)] on a non-empty list; on the empty list Python
    raises, which the caller below rules out before it gets here. *)
Definition py_max_list (xs : list R) : R :=
  match xs with
  | [] => 0
  | x :: t => fold_left py_max t x
  end.

Definition py_min_list (xs : list R) : R :=
  match xs with
  | [] => 0
  | x :: t => fold_left py_min t x
  end.

(** [status] of [HarvestStatus]: "Ready", "Nearly Ready", "Not Ready",
    "Too Young"; message, colour and icon are fixed per status. *)
Inductive readiness : Type := Ready | NearlyReady | NotReady | TooYoung.

Record HarvestStatus : Type := mkHarvestStatus {
  hs_status : readiness;
  hs_confidence : R         (* Field(..., ge=0, le=1) *)
}.

Definition calculate_harvest_status (avg_length : R) : HarvestStatus :=
  if Rle_dec 25 avg_length then mkHarvestStatus Ready 0.95
  else if Rle_dec 20 avg_length then mkHarvestStatus NearlyReady 0.85
  else if Rle_dec 15 avg_length then mkHarvestStatus NotReady 0.90
  else mkHarvestStatus TooYoung 0.95.

(** "High (80-90%)", "Good (70-80%)", "Medium (60-70%)", "Low (50-60%)",
    "Very Low (40-50%)". *)
Inductive gel_content : Type := GelHigh | GelGood | GelMedium | GelLow | GelVeryLow.

(** "Mature", "Maturing", "Young". *)
Inductive maturity_label : Type := Mature | Maturing | Young.

(** "Harvest Now - Optimal Time", "Wait 2-3 Weeks", "Wait 4-6 Weeks",
    "Wait 8-12 Weeks". *)
Inductive harvest_action : Type :=
  HarvestNow | Wait2to3Weeks | Wait4to6Weeks | Wait8to12Weeks.

Record QualityIndicators : Type := mkQualityIndicators {
  gel_content_estimate : gel_content;
  maturity_level : maturity_label;
  recommended_action : harvest_action;
  harvest_readiness_score : Z       (* Field(..., ge=0, le=100) *)
}.

Definition calculate_quality_indicators (avg_length std_deviation : R)
  : QualityIndicators :=
  let '(gel_content, readiness_score) :=
    if Rle_dec 30 avg_length then (GelHigh, 95%Z)
    else if Rle_dec 25 avg_length then (GelGood, 85%Z)
    else if Rle_dec 20 avg_length then (GelMedium, 70%Z)
    else if Rle_dec 15 avg_length then (GelLow, 50%Z)
    else (GelVeryLow, 30%Z) in
  let maturity :=
    if Rle_dec 25 avg_length then Mature
    else if Rle_dec 18 avg_length then Maturing
    else Young in
  let action :=
    if Rle_dec 25 avg_length then HarvestNow
    else if Rle_dec 20 avg_length then Wait2to3Weeks
    else if Rle_dec 15 avg_length then Wait4to6Weeks
    else Wait8to12Weeks in
  let readiness_score :=
    if Rlt_dec std_deviation 2 then Z.min 100 (readiness_score + 5)
    else if Rlt_dec 5 std_deviation then Z.max 0 (readiness_score - 10)
    else readiness_score in
  {| gel_content_estimate := gel_content;
     maturity_level := maturity;
     recommended_action := action;
     harvest_readiness_score := readiness_score |}.

Record MarketInsights : Type := mkMarketInsights {
  price_per_leaf_min : R;
  price_per_leaf_max : R;
  estimated_revenue_min : R;
  estimated_revenue_max : R
}.

Definition calculate_market_insights (avg_length : R) (leaf_count : nat)
  : MarketInsights :=
  let '(price_min, price_max) :=
    if Rle_dec 30 avg_length then (3.00, 4.50)
    else if Rle_dec 25 avg_length then (2.50, 3.50)
    else if Rle_dec 20 avg_length then (1.80, 2.50)
    else if Rle_dec 15 avg_length then (1.20, 1.80)
    else (0.50, 1.20) in
  let revenue_min := price_min * INR leaf_count in
  let revenue_max := price_max * INR leaf_count in
  {| price_per_leaf_min := round2 price_min;
     price_per_leaf_max := round2 price_max;
     estimated_revenue_min := round2 revenue_min;
     estimated_revenue_max := round2 revenue_max |}.

(** The recommendation texts: five per size tier, in the order of the
    source, and the one appended for a low readiness score. *)
Inductive recommendation : Type :=
| HarvestOuterLeavesFirst | CutAtTheBase | HarvestEarlyMorning
| ProcessWithinHours | StoreGelRefrigerated
| ContinueRegularWatering | EnsureBrightIndirectSun | AvoidOverwatering
| ConsiderLightFertilization | RecheckIn2to3Weeks
| ProvideConsistentCare | EnsureAdequateSunlight | UseWellDrainingSoil
| AvoidDisturbingPlant | RecheckIn4to6Weeks
| BePatient | EnsureOptimalConditions | AvoidOverFertilization
| ProtectFromExtremeTemperatures | RecheckIn2to3Months
| FocusOnConsistentCare.

Definition generate_recommendations (avg_length : R) (quality : QualityIndicators)
  : list recommendation :=
  let recommendations :=
    if Rle_dec 25 avg_length then
      [HarvestOuterLeavesFirst; CutAtTheBase; HarvestEarlyMorning;
       ProcessWithinHours; StoreGelRefrigerated]
    else if Rle_dec 20 avg_length then
      [ContinueRegularWatering; EnsureBrightIndirectSun; AvoidOverwatering;
       ConsiderLightFertilization; RecheckIn2to3Weeks]
    else if Rle_dec 15 avg_length then
      [ProvideConsistentCare; EnsureAdequateSunlight; UseWellDrainingSoil;
       AvoidDisturbingPlant; RecheckIn4to6Weeks]
    else
      [BePatient; EnsureOptimalConditions; AvoidOverFertilization;
       ProtectFromExtremeTemperatures; RecheckIn2to3Months] in
  if Z.ltb (harvest_readiness_score quality) 70
  then recommendations ++ [FocusOnConsistentCare]
  else recommendations.

(** [LeafMeasurement] of the request body. *)
Record LeafMeasurement : Type := mkLeafMeasurement {
  length_cm : R;                 (* Field(..., gt=0) *)
  width_cm : option R            (* Field(None, gt=0) *)
}.

(** [HarvestAssessmentResponse], without its timestamp. *)
Record HarvestAssessmentResponse : Type := mkHarvestAssessmentResponse {
  leaf_count : nat;
  avg_length_cm : R;
  max_length_cm : R;
  min_length_cm : R;
  std_deviation : R;
  harvest_status : HarvestStatus;
  quality_indicators : QualityIndicators;
  market_insights : MarketInsights;
  recommendations : list recommendation
}.

(** What a handler answers: its response, or an [HTTPException]. *)
Inductive http_result (A : Type) : Type :=
| Response (a : A)
| HTTPException (status_code : nat).
Arguments Response {A} a.
Arguments HTTPException {A} status_code.

(** The handler [assess_harvest].  With no measurement the division
    [sum(lengths) / leaf_count] raises ZeroDivisionError, which the handler's
    [except Exception] turns into status 500.  [variance ** 0.5] is the
    square root. *)
Definition assess_harvest (measurements : list LeafMeasurement)
  : http_result HarvestAssessmentResponse :=
  let lengths := map length_cm measurements in
  let leaf_count := length lengths in
  if Nat.eqb leaf_count 0 then HTTPException 500
  else
    let avg_length := py_sum lengths / INR leaf_count in
    let max_length := py_max_list lengths in
    let min_length := py_min_list lengths in
    let std_deviation := std_dev_about avg_length lengths in
    let harvest_status := calculate_harvest_status avg_length in
    let quality_indicators :=
      calculate_quality_indicators avg_length std_deviation in
    let market_insights := calculate_market_insights avg_length leaf_count in
    let recommendations :=
      generate_recommendations avg_length quality_indicators in
    Response {| leaf_count := leaf_count;
                avg_length_cm := round2 avg_length;
                max_length_cm := round2 max_length;
                min_length_cm := round2 min_length;
                std_deviation := round2 std_deviation;
                harvest_status := harvest_status;
                quality_indicators := quality_indicators;
                market_insights := market_insights;
                recommendations := recommendations |}.

(** ** The upload handlers: [/harvest/detect_card], [/harvest/measure_length] *)

Module Upload.
Import String.

Definition content_type : Type := string.

Definition ALLOWED_IMAGE_TYPES : list content_type :=
  ["image/jpeg"%string; "image/png"%string; "image/jpg"%string].

Definition MAX_UPLOAD_SIZE : Z := 10 * 1024 * 1024.

(** [image.content_type in ALLOWED_IMAGE_TYPES]. *)
Definition allowed (t : content_type) : bool :=
  existsb (String.eqb t) ALLOWED_IMAGE_TYPES.

Definition jpeg : content_type := "image/jpeg"%string.
Definition gif : content_type := "image/gif"%string.
End Upload.

(** What the body of a handler's [try] does: return, raise an
    [HTTPException] itself, raise a [ValueError], raise the
    [json.JSONDecodeError] of [json.loads] on a form field that is not JSON,
    or raise anything else (the KeyError or TypeError of an entry of
    another shape, the OverflowError of [**], an error of OpenCV).  The
    bodies modelled below take their form fields parsed and typed, so they
    end in one of the first three ways. *)
Inductive outcome (A : Type) : Type :=
| Return (a : A)
| RaiseHTTP (status_code : nat)
| RaiseValueError (e : error)
| RaiseJSONDecodeError
| RaiseOther.
Arguments Return {A} a.
Arguments RaiseHTTP {A} status_code.
Arguments RaiseValueError {A} e.
Arguments RaiseJSONDecodeError {A}.
Arguments RaiseOther {A}.

(** The [except] clauses shared by both handlers: [json.JSONDecodeError]
    and [ValueError] become status 400; [except Exception] catches
    everything else, the [HTTPException]s raised inside the [try] included,
    and answers 500. *)
Definition handle_exceptions {A : Type} (o : outcome A) : http_result A :=
  match o with
  | Return a => Response a
  | RaiseJSONDecodeError => HTTPException 400
  | RaiseValueError _ => HTTPException 400
  | RaiseHTTP _ => HTTPException 500
  | RaiseOther => HTTPException 500
  end.

(** "Card successfully detected" and "Unable to detect card automatically.
    Please mark corners manually." *)
Inductive detection_message : Type := CardDetected | CardNotDetected.

Record CardDetectionResponse : Type := mkCardDetectionResponse {
  success : bool;
  card_corners : option (list point);
  detection_confidence : R;
  message : detection_message
}.

Section Handlers.
Context {image matrix contour : Type} {cv : OpenCV image matrix contour}.

(** The handler [detect_card]: [size] is [len(contents)], [img] the result
    of [cv2.imdecode]. *)
Definition detect_card_try
    (content_type : Upload.content_type) (size : Z) (img : option image)
    (crop_quad : option (list point)) : outcome CardDetectionResponse :=
  if negb (Upload.allowed content_type) then RaiseHTTP 400
  else if Z.ltb Upload.MAX_UPLOAD_SIZE size then RaiseHTTP 400
  else
    match img with
    | None => RaiseHTTP 400
    | Some img =>
        let cropped :=
          match crop_quad with
          | Some crop_data =>
              if negb (Nat.eqb (length crop_data) 4) then Err CropQuadCount
              else apply_quad_warp img crop_data
          | None => Ok img
          end in
        match cropped with
        | Err e => RaiseValueError e
        | Ok img =>
            match detect_credit_card img with
            | Err e => RaiseValueError e
            | Ok (Some detected_corners) =>
                Return {| success := true;
                          card_corners :=
                            Some [tl detected_corners; tr detected_corners;
                                  br detected_corners; bl detected_corners];
                          detection_confidence := 0.85;
                          message := CardDetected |}
            | Ok None =>
                Return {| success := false;
                          card_corners := None;
                          detection_confidence := 0.0;
                          message := CardNotDetected |}
            end
        end
    end.

Definition detect_card
    (content_type : Upload.content_type) (size : Z) (img : option image)
    (crop_quad : option (list point)) : http_result CardDetectionResponse :=
  handle_exceptions (detect_card_try content_type size img crop_quad).

(** The handler around [measure_leaf_length]: the checks of the upload,
    then the body modelled above, whose only [HTTPException] is the one
    for an image that does not decode. *)
Definition measure_length_try
    (content_type : Upload.content_type) (size : Z) (img : option image)
    (crop_quad : option (list point))
    (card_data : list point) (leaf_data : list leaf) : outcome response :=
  if negb (Upload.allowed content_type) then RaiseHTTP 400
  else if Z.ltb Upload.MAX_UPLOAD_SIZE size then RaiseHTTP 400
  else
    match measure_leaf_length img crop_quad card_data leaf_data with
    | Ok r => Return r
    | Err ImageDecodeFailed => RaiseHTTP 400
    | Err e => RaiseValueError e
    end.

Definition measure_length
    (content_type : Upload.content_type) (size : Z) (img : option image)
    (crop_quad : option (list point))
    (card_data : list point) (leaf_data : list leaf) : http_result response :=
  handle_exceptions
    (measure_length_try content_type size img crop_quad card_data leaf_data).
End Handlers.

(** ** Transformations of the marked points *)



(** The corners of an ordered quadrilateral, as a list in its order. *)
Definition corners (q : quad) : list point := [tl q; tr q; br q; bl q].

(** The points marked on a leaf entry. *)
Definition leaf_points (l : leaf) : list point :=
  match l with
  | LeafPoints points => points
  | LeafBaseTip base tip => [base; tip]
  end.

(** A leaf entry the validation loop accepts. *)
Definition well_formed_leaf (l : leaf) : Prop :=
  match l with
  | LeafPoints points => (3 <= length points)%nat
  | LeafBaseTip _ _ => True
  end.


(** The crop part of a request goes through: no crop, or 4 crop points and
    an image that decodes. *)
Definition crop_accepted {image : Type} (img : option image)
    (crop_quad : option (list point)) : Prop :=
  match crop_quad with
  | None => True
  | Some crop_data => length crop_data = 4%nat /\ img <> None
  end.

(** The response as a function of the rounded lengths. *)
Definition assessment_of (lengths : list R) : response :=
  let avg := round1 (py_sum lengths / INR (length lengths)) in
  {| leaf_lengths_cm := lengths;
     avg_leaf_length_cm := avg;
     stage := maturity_stage avg;
     confidence_status := fst (confidence_of lengths avg);
     retake_message := snd (confidence_of lengths avg) |}.

(** ** The arithmetic of the measuring handler in binary64

    The module [Binary64] follows [measure_leaf_length] from its validation
    to its return (lines 539 to 675 of the source) for a request without
    [crop_quad], on binary64 floats, operation by operation and in the
    order of the source.  [+ - * /] and [np.sqrt] are the IEEE 754
    operations rounded to nearest.  [x ** 2] on a Python float is the square
    rounded to nearest, which is what the [pow] of the C library returns for
    it up to its accuracy in the last bit, and raises OverflowError when it
    overflows; a square that underflows is 0.  [round(x, 1)] rounds the
    exact binary value of [x] to the nearest tenth, ties to the even tenth,
    and returns the float nearest to that tenth.  A JSON number is taken as
    [json.loads] reads one written with a fraction or an exponent, a float;
    a number written as a whole number is read as an [int], and the values
    computed here are the same for whole numbers below 2^26. *)
Module Binary64.
Local Open Scope float_scope.
Local Set Warnings "-inexact-float".

Record point : Type := mkPoint { px : float; py : float }.

Inductive leaf : Type :=
| LeafPoints (points : list point)
| LeafBaseTip (base tip : point).

(** What the body of the [try] raises here: one of the [ValueError]s of the
    validation, or the OverflowError of [**]. *)
Inductive raised : Type :=
| ValueError (e : error)
| OverflowError.

Inductive result (A : Type) : Type :=
| Ok (a : A)
| Raise (e : raised).
Arguments Ok {A} a.
Arguments Raise {A} e.

Definition bind {A B : Type} (r : result A) (k : A -> result B) : result B :=
  match r with
  | Ok a => k a
  | Raise e => Raise e
  end.

Local Notation "x <-- r ;; k" := (bind r (fun x => k))
  (at level 61, r at next level, right associativity).

Record response : Type := mkResponse {
  leaf_lengths_cm : list float;
  avg_leaf_length_cm : float;
  stage : maturity;
  confidence_status : confidence;
  retake_message : option retake_text
}.

Definition L1 : float := 18.0.
Definition L2 : float := 25.0.
Definition CARD_WIDTH_MM : float := 85.60.

(** [float(n)] for a whole number [0 <= n < 2^63]. *)
Definition of_Z (n : Z) : float := of_uint63 (Uint63.of_Z n).

(** [x ** 2] on a float. *)
Definition pow2 (x : float) : result float :=
  let y := x * x in
  if (is_infinity y && negb (is_infinity x))%bool then Raise OverflowError
  else Ok y.

(** The integer nearest to [n / d] for [d > 0], ties to even. *)
Definition nearest_even (n d : Z) : Z :=
  let q := (n / d)%Z in
  match (2 * (n mod d) ?= d)%Z with
  | Lt => q
  | Gt => (q + 1)%Z
  | Eq => if Z.even q then q else (q + 1)%Z
  end.

(** [round(x, 1)].  A finite [x] is [m * 2^e] for whole numbers [m < 2^53]
    and [e]; from [e = -3] upwards the floats are 1/8 apart or more and
    [round] returns [x] itself. *)
Definition round1 (x : float) : float :=
  match FloatOps.Prim2SF x with
  | SpecFloat.S754_finite s m e =>
      if (-4 <? e)%Z then x
      else
        let tenths := nearest_even (10 * Zpos m) (2 ^ (- e)) in
        let r := of_Z tenths / 10 in
        if s then - r else r
  | _ => x
  end.

(** [sum(l)]: starts from the int 0 and adds from the left. *)
Definition py_sum (l : list float) : float := fold_left PrimFloat.add l 0.

(** [np.sqrt((q.x - p.x) ** 2 + (q.y - p.y) ** 2)]. *)
Definition distance (p q : point) : result float :=
  dx2 <-- pow2 (px q - px p) ;;
  dy2 <-- pow2 (py q - py p) ;;
  Ok (PrimFloat.sqrt (dx2 + dy2)).

Definition origin : point := mkPoint 0 0.
Definition row (pts : list point) (i : nat) : point := nth i pts origin.

Fixpoint validate_leaves (i : nat) (leaf_data : list leaf) : result unit :=
  match leaf_data with
  | [] => Ok tt
  | LeafPoints points :: rest =>
      if Nat.ltb (length points) 3
      then Raise (ValueError (LeafTooFewPoints (i + 1)))
      else validate_leaves (S i) rest
  | LeafBaseTip _ _ :: rest => validate_leaves (S i) rest
  end.

(** The inner loop [for i in range(len(points) - 1)]. *)
Definition curve_distance (points : list point) : result float :=
  fold_left
    (fun acc i =>
       pixel_distance <-- acc ;;
       segment_distance <-- distance (row points i) (row points (i + 1)) ;;
       Ok (pixel_distance + segment_distance))
    (seq 0 (length points - 1)) (Ok 0).

Definition pixel_distance (l : leaf) : result float :=
  match l with
  | LeafPoints points => curve_distance points
  | LeafBaseTip base tip => distance base tip
  end.

Definition maturity_stage (avg : float) : maturity :=
  if L2 <=? avg then MATURE
  else if L1 <=? avg then INTERMEDIATE
  else NOT_MATURE.

(** [np.sqrt(sum((x - mean) ** 2 for x in xs) / len(xs))]. *)
Definition std_dev_about (mean : float) (xs : list float) : result float :=
  total <-- fold_left
              (fun acc x =>
                 a <-- acc ;; square <-- pow2 (x - mean) ;; Ok (a + square))
              xs (Ok 0) ;;
  Ok (PrimFloat.sqrt (total / of_Z (Z.of_nat (length xs)))).

Definition confidence_of (lengths : list float) (avg : float)
  : result (confidence * option retake_text) :=
  if Nat.eqb (length lengths) 1 then Ok (LOW, Some OnlyOneLeaf)
  else if Nat.leb 2 (length lengths) then
    std_dev <-- std_dev_about avg lengths ;;
    if 4 <=? std_dev then Ok (LOW, Some HighVariation)
    else if 2 <=? std_dev then Ok (MEDIUM, None)
    else Ok (HIGH, None)
  else Ok (HIGH, None).

(** The loop [for leaf in leaf_data] with its list [leaf_lengths_cm],
    started empty and appended to. *)
Definition measure_leaves (pixels_per_mm : float) (leaf_data : list leaf)
  : result (list float) :=
  fold_left
    (fun acc l =>
       leaf_lengths_cm <-- acc ;;
       pixel_distance <-- pixel_distance l ;;
       let length_mm := pixel_distance / pixels_per_mm in
       let length_cm := length_mm / 10.0 in
       Ok (leaf_lengths_cm ++ [round1 length_cm]))
    leaf_data (Ok []).

Definition measure_leaf_length (card_data : list point) (leaf_data : list leaf)
  : result response :=
  if negb (Nat.eqb (length card_data) 4)
  then Raise (ValueError CardCornersCount)
  else if (Nat.ltb (length leaf_data) 1 || Nat.ltb 3 (length leaf_data))%bool
  then Raise (ValueError LeafCountOutOfRange)
  else
    _ <-- validate_leaves 0 leaf_data ;;
    card_width_pixels <-- distance (row card_data 0) (row card_data 1) ;;
    let pixels_per_mm := card_width_pixels / CARD_WIDTH_MM in
    if pixels_per_mm <=? 0 then Raise (ValueError InvalidCardCalibration)
    else
      leaf_lengths_cm <-- measure_leaves pixels_per_mm leaf_data ;;
      let avg_leaf_length_cm :=
        round1 (py_sum leaf_lengths_cm
                / of_Z (Z.of_nat (length leaf_lengths_cm))) in
      c <-- confidence_of leaf_lengths_cm avg_leaf_length_cm ;;
      Ok {| leaf_lengths_cm := leaf_lengths_cm;
            avg_leaf_length_cm := avg_leaf_length_cm;
            stage := maturity_stage avg_leaf_length_cm;
            confidence_status := fst c;
            retake_message := snd c |}.

(** The [except] clauses on what this body raises: a [ValueError] becomes
    status 400, the OverflowError is caught by [except Exception] and
    becomes status 500. *)
Definition handle_exceptions (r : result response) : http_result response :=
  match r with
  | Ok a => Response a
  | Raise (ValueError _) => HTTPException 400
  | Raise OverflowError => HTTPException 500
  end.

(** The example card at 10 pixels per millimetre, and a leaf marked base to
    tip along the x axis. *)
Definition card_856 : list point :=
  [mkPoint 0 0; mkPoint 856 0; mkPoint 856 540; mkPoint 0 540].

Definition straight (length_px : float) : leaf :=
  LeafBaseTip (mkPoint 0 0) (mkPoint length_px 0).


(** Cards whose first two corners are 1e200 and 1e-200 pixels apart. *)
Definition card_huge : list point :=
  [mkPoint 0 0; mkPoint 1e200 0; mkPoint 1e200 1; mkPoint 0 1].
Definition card_tiny : list point :=
  [mkPoint 0 0; mkPoint 1e-200 0; mkPoint 1e-200 1; mkPoint 0 1].

End Binary64.

(** * Properties *)

(** ** Deciding comparisons of concrete reals *)

Ltac decide_R :=
  repeat match goal with
         | |- context [Rlt_dec ?a ?b] => destruct (Rlt_dec a b); try lra
         | |- context [Rle_dec ?a ?b] => destruct (Rle_dec a b); try lra
         end.

(** ** argmin and argmax select an extreme element *)

Lemma argmin_from_spec (l pre : list R) (best : R) (bi i : nat) (d : R) :
  length pre = i -> (bi < i)%nat -> nth bi pre d = best ->
  (forall x, In x pre -> best <= x) ->
  let k := argmin_from best bi i l in
  (k < length (pre ++ l))%nat /\
  forall x, In x (pre ++ l) -> nth k (pre ++ l) d <= x.
Proof.
  revert pre best bi i.
  induction l as [|x t IH]; intros pre best bi i Hlen Hbi Hnth Hmin; cbn.
  - rewrite app_nil_r. split; [lia|]. now rewrite Hnth.
  - replace (pre ++ x :: t) with ((pre ++ [x]) ++ t)
      by now rewrite <- app_assoc.
    destruct (Rlt_dec x best) as [Hlt|Hge].
    + apply IH.
      * rewrite length_app; cbn; lia.
      * lia.
      * rewrite app_nth2 by lia. now rewrite Hlen, Nat.sub_diag.
      * intros y [Hy|[<-|[]]]%in_app_or; [|lra].
        specialize (Hmin y Hy). lra.
    + apply IH.
      * rewrite length_app; cbn; lia.
      * lia.
      * rewrite app_nth1 by lia. exact Hnth.
      * intros y [Hy|[<-|[]]]%in_app_or; [auto|lra].
Qed.

Lemma argmin_spec (l : list R) (d : R) :
  l <> [] ->
  (argmin l < length l)%nat /\ forall x, In x l -> nth (argmin l) l d <= x.
Proof.
  destruct l as [|x t]; [easy|]. intros _.
  apply (argmin_from_spec t [x] x 0 1 d); cbn; auto.
  intros y [<-|[]]. lra.
Qed.

Lemma argmax_from_opp (l : list R) (best : R) (bi i : nat) :
  argmax_from best bi i l = argmin_from (- best) bi i (map Ropp l).
Proof.
  revert best bi i. induction l as [|x t IH]; intros; cbn; [easy|].
  destruct (Rlt_dec best x), (Rlt_dec (- x) (- best)); try lra; apply IH.
Qed.

Lemma argmax_opp (l : list R) : argmax l = argmin (map Ropp l).
Proof. destruct l; [easy|]. apply argmax_from_opp. Qed.

Lemma argmax_spec (l : list R) (d : R) :
  l <> [] ->
  (argmax l < length l)%nat /\ forall x, In x l -> x <= nth (argmax l) l d.
Proof.
  intros Hl. rewrite argmax_opp.
  destruct (argmin_spec (map Ropp l) (- d)) as [Hk Hmin].
  { now destruct l. }
  rewrite length_map in Hk. split; [exact Hk|].
  intros x Hx. specialize (Hmin (- x) (in_map Ropp l x Hx)).
  rewrite (map_nth Ropp) in Hmin. lra.
Qed.

(** The row picked by [pts[np.argmin(key of each row)]]. *)
Lemma row_argmin (key : point -> R) (pts : list point) :
  pts <> [] ->
  let p := row pts (argmin (map key pts)) in
  In p pts /\ forall r, In r pts -> key p <= key r.
Proof.
  intros Hne.
  destruct (argmin_spec (map key pts) (key origin)) as [Hk Hmin].
  { now destruct pts. }
  rewrite length_map in Hk. cbn. unfold row. split.
  - now apply nth_In.
  - intros r Hr. rewrite <- (map_nth key). apply Hmin. now apply in_map.
Qed.

Lemma row_argmax (key : point -> R) (pts : list point) :
  pts <> [] ->
  let p := row pts (argmax (map key pts)) in
  In p pts /\ forall r, In r pts -> key r <= key p.
Proof.
  intros Hne.
  destruct (argmax_spec (map key pts) (key origin)) as [Hk Hmax].
  { now destruct pts. }
  rewrite length_map in Hk. cbn. unfold row. split.
  - now apply nth_In.
  - intros r Hr. rewrite <- (map_nth key). apply Hmax. now apply in_map.
Qed.

Lemma row_argmin_perm (key : point -> R) (pts pts' : list point) :
  Permutation pts pts' -> pts <> [] -> unique_min key pts ->
  row pts (argmin (map key pts)) = row pts' (argmin (map key pts')).
Proof.
  intros Hp Hne Hu.
  assert (Hne' : pts' <> []).
  { intros ->. apply Permutation_sym, Permutation_nil in Hp. contradiction. }
  destruct (row_argmin key pts Hne) as [Hin Hmin].
  destruct (row_argmin key pts' Hne') as [Hin' Hmin'].
  apply Hu; auto.
  - eapply Permutation_in; [apply Permutation_sym|]; eassumption.
  - intros r Hr. apply Hmin'. eapply Permutation_in; eassumption.
Qed.

Lemma row_argmax_perm (key : point -> R) (pts pts' : list point) :
  Permutation pts pts' -> pts <> [] -> unique_max key pts ->
  row pts (argmax (map key pts)) = row pts' (argmax (map key pts')).
Proof.
  intros Hp Hne Hu.
  assert (Hne' : pts' <> []).
  { intros ->. apply Permutation_sym, Permutation_nil in Hp. contradiction. }
  destruct (row_argmax key pts Hne) as [Hin Hmax].
  destruct (row_argmax key pts' Hne') as [Hin' Hmax'].
  apply Hu; auto.
  - eapply Permutation_in; [apply Permutation_sym|]; eassumption.
  - intros r Hr. apply Hmax'. eapply Permutation_in; eassumption.
Qed.

Lemma order_points_perm (pts pts' : list point) :
  Permutation pts pts' -> no_extreme_ties pts ->
  order_points pts = order_points pts'.
Proof.
  intros Hp (Hsmin & Hsmax & Hdmin & Hdmax). unfold order_points.
  rewrite <- (Permutation_length Hp).
  destruct (Nat.eqb (length pts) 4) eqn:Hlen; [|reflexivity].
  assert (Hne : pts <> []) by (intros ->; discriminate).
  rewrite (row_argmin_perm pt_sum pts pts'),
          (row_argmin_perm pt_diff pts pts'),
          (row_argmax_perm pt_sum pts pts'),
          (row_argmax_perm pt_diff pts pts'); auto.
Qed.

(** ** Numeric facts *)

Lemma Int_part_eq (r : R) (z : Z) : IZR z <= r < IZR z + 1 -> Int_part r = z.
Proof. intros H. symmetry. apply Int_part_spec. lra. Qed.

Lemma Int_part_bounds (r : R) : IZR (Int_part r) <= r < IZR (Int_part r) + 1.
Proof. destruct (base_Int_part r). lra. Qed.

Lemma Int_part_nonneg (r : R) : 0 <= r -> (0 <= Int_part r)%Z.
Proof.
  intros H. pose proof (Int_part_bounds r) as Hb.
  assert (Hlt : IZR (-1) < IZR (Int_part r)) by lra.
  apply lt_IZR in Hlt. lia.
Qed.

Lemma py_int_nonneg (x : R) : 0 <= x -> py_int x = Int_part x.
Proof. intros H. unfold py_int. now destruct (Rle_dec 0 x). Qed.

Lemma py_max_Rmax (a b : R) : py_max a b = Rmax a b.
Proof.
  unfold py_max, Rmax. destruct (Rlt_dec a b), (Rle_dec a b); lra.
Qed.

Lemma round_half_even_eq (y : R) (z : Z) :
  IZR z - 1 / 2 < y < IZR z + 1 / 2 -> round_half_even y = z.
Proof.
  intros H. unfold round_half_even.
  pose proof (Int_part_bounds y) as Hb.
  generalize dependent (Int_part y). intros f Hb.
  assert (Hlo : (z - 1 <= f)%Z).
  { assert (IZR (z - 1) < IZR (f + 1)) as Hlt
      by (rewrite minus_IZR, plus_IZR; lra).
    apply lt_IZR in Hlt. lia. }
  assert (Hhi : (f <= z)%Z).
  { assert (IZR f < IZR (z + 1)) as Hlt by (rewrite plus_IZR; lra).
    apply lt_IZR in Hlt. lia. }
  destruct (Z.eq_dec f z) as [->|Hne].
  - destruct (Rlt_dec _ _); [reflexivity|lra].
  - assert (f = z - 1)%Z as -> by lia.
    rewrite minus_IZR in *.
    destruct (Rlt_dec _ _); [lra|]. destruct (Rlt_dec _ _); [lia|lra].
Qed.

Lemma round_half_even_near (y : R) :
  - (1 / 2) <= y - IZR (round_half_even y) <= 1 / 2.
Proof.
  unfold round_half_even. pose proof (Int_part_bounds y) as Hb.
  generalize dependent (Int_part y). intros f Hb.
  destruct (Rlt_dec _ _); [lra|].
  destruct (Rlt_dec _ _); [rewrite plus_IZR; lra|].
  destruct (Z.even f); [|rewrite plus_IZR]; lra.
Qed.

Lemma round1_eq (x : R) (z : Z) :
  IZR z - 1 / 2 < x * 10 < IZR z + 1 / 2 -> round1 x = IZR z / 10.
Proof. intros H. unfold round1. now rewrite (round_half_even_eq _ z). Qed.

Lemma distance_nonneg (p q : point) : 0 <= distance p q.
Proof. apply sqrt_pos. Qed.


Lemma distance_horizontal (x x' y : R) :
  x <= x' -> distance (mkPoint x y) (mkPoint x' y) = x' - x.
Proof.
  intros H. unfold distance; cbn [px py].
  replace ((x' - x) ^ 2 + (y - y) ^ 2) with ((x' - x) ^ 2) by ring.
  apply sqrt_pow2. lra.
Qed.

Lemma distance_vertical (x y y' : R) :
  y <= y' -> distance (mkPoint x y) (mkPoint x y') = y' - y.
Proof.
  intros H. unfold distance; cbn [px py].
  replace ((x - x) ^ 2 + (y' - y) ^ 2) with ((y' - y) ^ 2) by ring.
  apply sqrt_pow2. lra.
Qed.

Lemma distance_nonneg_arg (p q : point) :
  0 <= (px q - px p) ^ 2 + (py q - py p) ^ 2.
Proof.
  pose proof (pow2_ge_0 (px q - px p)). pose proof (pow2_ge_0 (py q - py p)).
  lra.
Qed.

Lemma distance_zero (p q : point) : distance p q = 0 -> p = q.
Proof.
  unfold distance. intros H.
  apply sqrt_eq_0 in H; [|apply distance_nonneg_arg].
  destruct p as [a b], q as [c d]; cbn [px py] in H.
  pose proof (pow2_ge_0 (c - a)) as Hx. pose proof (pow2_ge_0 (d - b)) as Hy.
  assert (Hx0 : (c - a) ^ 2 = 0) by lra.
  assert (Hy0 : (d - b) ^ 2 = 0) by lra.
  f_equal; nra.
Qed.

Lemma distance_pos (p q : point) : p <> q -> 0 < distance p q.
Proof.
  intros Hne. destruct (distance_nonneg p q) as [H|H]; [exact H|].
  exfalso. apply Hne. now apply distance_zero.
Qed.

(** ** order_points on an axis-aligned rectangle *)

Lemma order_points_rect (x0 y0 x1 y1 : R) :
  x0 < x1 -> y0 < y1 ->
  order_points (rect_corners x0 y0 x1 y1) =
  Ok {| tl := mkPoint x0 y0; tr := mkPoint x1 y0;
        br := mkPoint x1 y1; bl := mkPoint x0 y1 |}.
Proof.
  intros Hx Hy. unfold order_points, rect_corners, pt_sum, pt_diff.
  cbn [length Nat.eqb map argmin argmax argmin_from argmax_from px py].
  decide_R; reflexivity.
Qed.

Ltac split_In :=
  repeat match goal with
         | H : In _ (_ :: _) |- _ => destruct H as [<-|H]
         | H : In _ [] |- _ => destruct H
         end.

Lemma rect_no_extreme_ties (x0 y0 x1 y1 : R) :
  x0 < x1 -> y0 < y1 -> no_extreme_ties (rect_corners x0 y0 x1 y1).
Proof.
  intros Hx Hy.
  repeat split; intros p q Hp Hq Hmp Hmq;
    pose proof (Hmp _ (or_introl eq_refl)) as A1;
    pose proof (Hmp _ (or_intror (or_introl eq_refl))) as A2;
    pose proof (Hmp _ (or_intror (or_intror (or_introl eq_refl)))) as A3;
    pose proof (Hmp _ (or_intror (or_intror (or_intror (or_introl eq_refl))))) as A4;
    pose proof (Hmq _ (or_introl eq_refl)) as B1;
    pose proof (Hmq _ (or_intror (or_introl eq_refl))) as B2;
    pose proof (Hmq _ (or_intror (or_intror (or_introl eq_refl)))) as B3;
    pose proof (Hmq _ (or_intror (or_intror (or_intror (or_introl eq_refl))))) as B4;
    clear Hmp Hmq; unfold rect_corners in Hp, Hq; split_In;
    unfold pt_sum, pt_diff in *; cbn [px py] in *;
    first [reflexivity | exfalso; lra].
Qed.

(** ** apply_quad_warp *)

Section WarpFacts.
Context {image matrix contour : Type} {cv : OpenCV image matrix contour}.

Lemma apply_quad_warp_ordered (img : image) (pts : list point) (q : quad) :
  order_points pts = Ok q ->
  let w := Int_part (Rmax (distance (tl q) (tr q)) (distance (bl q) (br q))) in
  let h := Int_part (Rmax (distance (tl q) (bl q)) (distance (tr q) (br q))) in
  apply_quad_warp img pts =
  Ok (warpPerspective img (getPerspectiveTransform q (dst_rectangle w h)) (w, h)).
Proof.
  intros Hq. unfold apply_quad_warp. rewrite Hq. cbn [bind].
  rewrite !py_max_Rmax.
  rewrite !py_int_nonneg; [reflexivity| |].
  - eapply Rle_trans; [apply (distance_nonneg (tl q) (bl q))|apply Rmax_l].
  - eapply Rle_trans; [apply (distance_nonneg (tl q) (tr q))|apply Rmax_l].
Qed.

Lemma apply_quad_warp_rect (img : image) (x0 y0 x1 y1 : R) (pts : list point) :
  x0 < x1 -> y0 < y1 -> Permutation (rect_corners x0 y0 x1 y1) pts ->
  let w := Int_part (x1 - x0) in
  let h := Int_part (y1 - y0) in
  apply_quad_warp img pts =
  Ok (warpPerspective img
        (getPerspectiveTransform
           {| tl := mkPoint x0 y0; tr := mkPoint x1 y0;
              br := mkPoint x1 y1; bl := mkPoint x0 y1 |}
           (dst_rectangle w h)) (w, h)).
Proof.
  intros Hx Hy Hp.
  assert (Hq := order_points_rect x0 y0 x1 y1 Hx Hy).
  rewrite (order_points_perm _ pts Hp (rect_no_extreme_ties _ _ _ _ Hx Hy)) in Hq.
  rewrite (apply_quad_warp_ordered img pts _ Hq). cbn [tl tr br bl].
  rewrite !distance_horizontal, !distance_vertical by lra.
  unfold Rmax. destruct (Rle_dec _ _), (Rle_dec _ _); reflexivity.
Qed.
End WarpFacts.

Lemma square_shuffled_perm : Permutation square_100_300 square_shuffled.
Proof.
  unfold square_100_300, rect_corners, square_shuffled.
  apply (Permutation_cons_app [mkPoint 300 300] [mkPoint 300 100; mkPoint 100 300]).
  apply (Permutation_cons_app [mkPoint 300 300] [mkPoint 100 300]).
  apply Permutation_refl.
Defined.

(** C2, failing input.  The square standing on a corner, (1,0), (0,1),
    (2,1), (1,2), has two corners with the smallest x + y and two with the
    smallest y - x, and [np.argmin] and [np.argmax] take the first of tied
    extremes.  [order_points] returns (1,0) both as top-left and as
    top-right and loses the corner (1,2); with the first two input points
    exchanged it returns (0,1) both as top-left and as bottom-left.  The two
    listings of the same four corners are ordered differently, and
    [apply_quad_warp] issues a different warp for each. *)
Lemma order_points_duplicates_corner :
  Permutation diamond diamond_swapped /\
  order_points diamond =
    Ok {| tl := mkPoint 1 0; tr := mkPoint 1 0;
          br := mkPoint 2 1; bl := mkPoint 0 1 |} /\
  order_points diamond_swapped =
    Ok {| tl := mkPoint 0 1; tr := mkPoint 1 0;
          br := mkPoint 2 1; bl := mkPoint 0 1 |} /\
  order_points diamond <> order_points diamond_swapped /\
  apply_quad_warp (Photo []) diamond <>
  apply_quad_warp (Photo []) diamond_swapped.
Proof.
  assert (H1 : order_points diamond =
    Ok {| tl := mkPoint 1 0; tr := mkPoint 1 0;
          br := mkPoint 2 1; bl := mkPoint 0 1 |}).
  { unfold order_points, diamond, pt_sum, pt_diff.
    cbn [length Nat.eqb map argmin argmax argmin_from argmax_from px py].
    decide_R. reflexivity. }
  assert (H2 : order_points diamond_swapped =
    Ok {| tl := mkPoint 0 1; tr := mkPoint 1 0;
          br := mkPoint 2 1; bl := mkPoint 0 1 |}).
  { unfold order_points, diamond_swapped, pt_sum, pt_diff.
    cbn [length Nat.eqb map argmin argmax argmin_from argmax_from px py].
    decide_R. reflexivity. }
  split; [apply perm_swap|]. split; [exact H1|]. split; [exact H2|]. split.
  - rewrite H1, H2. intros H. injection H as H _. lra.
  - rewrite (apply_quad_warp_ordered _ _ _ H1), (apply_quad_warp_ordered _ _ _ H2).
    cbn [warpPerspective getPerspectiveTransform demo_cv fst snd].
    intros H. injection H as H _. lra.
Qed.

(** C6, counterexample.  For the crop rectangle 100.75 by 50.75 the warp is
    issued with output size 100 by 50, the truncations, while rounding the
    two longest edges gives 101 by 51. *)
Lemma warp_size_round_counterexample :
  order_points frac_rect = Ok frac_quad /\
  apply_quad_warp (Photo []) frac_rect =
    Ok (Warped (Photo []) frac_quad (dst_rectangle 100 50) (100, 50)%Z) /\
  round_half_even (Rmax (distance (tl frac_quad) (tr frac_quad))
                        (distance (bl frac_quad) (br frac_quad))) = 101%Z /\
  round_half_even (Rmax (distance (tl frac_quad) (bl frac_quad))
                        (distance (tr frac_quad) (br frac_quad))) = 51%Z.
Proof.
  assert (Hq : order_points frac_rect = Ok frac_quad)
    by (apply order_points_rect; lra).
  split; [exact Hq|]. split.
  - rewrite (apply_quad_warp_rect (Photo []) 0 0 100.75 50.75 frac_rect)
      by (try lra; apply Permutation_refl).
    rewrite (Int_part_eq (100.75 - 0) 100), (Int_part_eq (50.75 - 0) 50) by lra.
    reflexivity.
  - unfold frac_quad; cbn [tl tr br bl].
    rewrite !distance_horizontal, !distance_vertical by lra.
    rewrite !Rmax_left by lra.
    split; apply round_half_even_eq; lra.
Qed.

(** C6, amended.  The warp is issued with output width
    int(max(|tr - tl|, |br - bl|)) and output height
    int(max(|bl - tl|, |br - tr|)): the longest edge is truncated to a whole
    number, not rounded.  This is stated for corners on the pixel grid of an
    image of at most 2048 pixels a side, where the float32 arithmetic of the
    source gives these whole numbers.  For the axis-aligned rectangle
    spanning [a,b] x [c,d] on that grid, corners given in any order, the
    output size is exactly (b - a, d - c). *)
Theorem warp_output_size
    {image matrix contour : Type} {cv : OpenCV image matrix contour}
    (img : image) :
  (forall pts q,
     Forall (on_pixel_grid 2048) pts ->
     order_points pts = Ok q ->
     let width := Rmax (distance (tl q) (tr q)) (distance (bl q) (br q)) in
     let height := Rmax (distance (tl q) (bl q)) (distance (tr q) (br q)) in
     exists w h : Z,
       apply_quad_warp img pts =
       Ok (warpPerspective img (getPerspectiveTransform q (dst_rectangle w h))
             (w, h)) /\
       IZR w <= width < IZR w + 1 /\ IZR h <= height < IZR h + 1) /\
  (forall (a b c d : Z) pts,
     (0 <= a < b)%Z -> (b <= 2048)%Z -> (0 <= c < d)%Z -> (d <= 2048)%Z ->
     Permutation (rect_corners (IZR a) (IZR c) (IZR b) (IZR d)) pts ->
     exists M,
       apply_quad_warp img pts =
       Ok (warpPerspective img M ((b - a)%Z, (d - c)%Z))).
Proof.
  split.
  - intros pts q _ Hq width height.
    exists (Int_part width), (Int_part height).
    split; [exact (apply_quad_warp_ordered img pts q Hq)|].
    split; apply Int_part_bounds.
  - intros a b c d pts [_ Hab] _ [_ Hcd] _ Hp.
    apply IZR_lt in Hab, Hcd.
    eexists.
    rewrite (apply_quad_warp_rect img _ _ _ _ pts Hab Hcd Hp).
    rewrite (Int_part_eq (IZR b - IZR a) (b - a)),
            (Int_part_eq (IZR d - IZR c) (d - c))
      by (rewrite minus_IZR; lra).
    reflexivity.
Qed.

Lemma warp_output_size_witness :
  (0 <= 100 < 300)%Z /\ (300 <= 2048)%Z /\
  Permutation (rect_corners 100 100 300 300) square_shuffled /\
  exists M,
    apply_quad_warp (Photo []) square_shuffled =
    Ok (Warped (Photo []) (fst M) (snd M) (200, 200)%Z).
Proof.
  split; [lia|]. split; [lia|]. split; [exact square_shuffled_perm|].
  destruct (proj2 (warp_output_size (Photo [])) 100 300 100 300 square_shuffled)%Z
    as (M & HM); [lia|lia|lia|lia|exact square_shuffled_perm|].
  exists M. exact HM.
Defined.

(** C7, counterexample.  A quadrilateral collapsed onto one pixel has
    computed width and height 0; [apply_quad_warp] raises nothing and
    issues the warp with output size 0 by 0. *)
Lemma degenerate_quad_not_rejected :
  apply_quad_warp (Photo []) collapsed =
  Ok (Warped (Photo []) collapsed_quad (dst_rectangle 0 0) (0, 0)%Z).
Proof.
  assert (Hq : order_points collapsed = Ok collapsed_quad).
  { unfold order_points, collapsed, pt_sum, pt_diff.
    cbn [length Nat.eqb map argmin argmax argmin_from argmax_from px py].
    decide_R. reflexivity. }
  rewrite (apply_quad_warp_ordered _ _ _ Hq).
  unfold collapsed_quad; cbn [tl tr br bl].
  rewrite !distance_horizontal by lra.
  replace (5 - 5) with 0 by ring. rewrite Rmax_left by lra.
  rewrite (Int_part_eq 0 0) by lra. reflexivity.
Qed.

(** C7, amended.  [apply_quad_warp] fails with the typed point-count error
    (the ValueError "Expected 4 points, got n") exactly when the
    quadrilateral does not contain 4 points, and the failure is a returned
    error value.  With 4 points it makes no check on the computed width and
    height and always issues the warp. *)
Theorem apply_quad_warp_failures
    {image matrix contour : Type} {cv : OpenCV image matrix contour}
    (img : image) (pts : list point) :
  (length pts <> 4%nat ->
   apply_quad_warp img pts = Err (ExpectedFourPoints (length pts))) /\
  (length pts = 4%nat ->
   exists M w h, apply_quad_warp img pts = Ok (warpPerspective img M (w, h)) /\
                 (0 <= w)%Z /\ (0 <= h)%Z).
Proof.
  split; intros Hlen.
  - unfold apply_quad_warp, order_points.
    apply Nat.eqb_neq in Hlen. now rewrite Hlen.
  - destruct (order_points pts) as [q|e] eqn:Hq.
    + eexists _, _, _.
      split; [exact (apply_quad_warp_ordered img pts q Hq)|].
      split; apply Int_part_nonneg;
        (eapply Rle_trans; [apply distance_nonneg|apply Rmax_l]).
    + exfalso. unfold order_points in Hq. rewrite Hlen in Hq. discriminate.
Qed.

Lemma apply_quad_warp_failures_witness :
  length [mkPoint 100 100; mkPoint 300 100; mkPoint 300 300] <> 4%nat /\
  apply_quad_warp (Photo [])
    [mkPoint 100 100; mkPoint 300 100; mkPoint 300 300] =
  Err (ExpectedFourPoints 3).
Proof.
  split; [discriminate|].
  apply (proj1 (apply_quad_warp_failures (Photo [])
                  [mkPoint 100 100; mkPoint 300 100; mkPoint 300 300])).
  discriminate.
Defined.

(** ** Summation and the curve loop *)

Lemma fold_left_Rplus_acc (l : list R) (a : R) :
  fold_left Rplus l a = a + fold_left Rplus l 0.
Proof.
  revert a. induction l as [|x t IH]; intros a; cbn.
  - ring.
  - rewrite (IH (a + x)), (IH (0 + x)). ring.
Qed.

Lemma py_sum_cons (x : R) (l : list R) : py_sum (x :: l) = x + py_sum l.
Proof. unfold py_sum; cbn. rewrite fold_left_Rplus_acc. ring. Qed.

Lemma py_sum_nil : py_sum [] = 0.
Proof. reflexivity. Qed.

Lemma curve_loop_polyline (pre points : list point) (acc : R) :
  fold_left
    (fun pixel_distance i =>
       pixel_distance + distance (row (pre ++ points) i)
                                 (row (pre ++ points) (i + 1)))
    (seq (length pre) (length points - 1)) acc
  = acc + polyline_length points.
Proof.
  revert pre acc. induction points as [|p t IH]; intros pre acc.
  - cbn. ring.
  - destruct t as [|q t'].
    + cbn. ring.
    + replace (length (p :: q :: t') - 1)%nat with (S (length (q :: t') - 1))
        by (cbn; lia).
      cbn [seq fold_left].
      replace (pre ++ p :: q :: t') with ((pre ++ [p]) ++ q :: t')
        by now rewrite <- app_assoc.
      replace (S (length pre)) with (length (pre ++ [p]))
        by (rewrite length_app; cbn; lia).
      rewrite IH. cbn [polyline_length].
      unfold row.
      rewrite <- app_assoc. cbn [app].
      rewrite app_nth2 by lia. rewrite Nat.sub_diag. cbn [nth].
      rewrite app_nth2 by lia.
      replace (length pre + 1 - length pre)%nat with 1%nat by lia. cbn [nth].
      ring.
Qed.

Lemma curve_distance_polyline (points : list point) :
  curve_distance points = polyline_length points.
Proof.
  unfold curve_distance.
  pose proof (curve_loop_polyline [] points 0) as H. cbn [app length] in H.
  rewrite H. ring.
Qed.


Lemma polyline_length_step (p q : point) (rest : list point) :
  polyline_length (p :: q :: rest) = distance p q + polyline_length (q :: rest).
Proof. reflexivity. Qed.


(** ** measure_leaf_length: what a successful call returns *)

Lemma validate_leaves_ok (leaves : list leaf) (i : nat) :
  validate_leaves i leaves = Ok tt <->
  Forall (fun l => match l with
                   | LeafPoints points => (3 <= length points)%nat
                   | LeafBaseTip _ _ => True
                   end) leaves.
Proof.
  revert i. induction leaves as [|l t IH]; intros i; cbn [validate_leaves].
  - split; [constructor|reflexivity].
  - destruct l as [points|base tip].
    + destruct (Nat.ltb (length points) 3) eqn:Hlt.
      * apply Nat.ltb_lt in Hlt. split; [discriminate|].
        intros H. inversion H; subst. lia.
      * apply Nat.ltb_ge in Hlt. rewrite IH. split.
        -- intros H. now constructor.
        -- intros H. now inversion H.
    + rewrite IH. split.
      * intros H. now constructor.
      * intros H. now inversion H.
Qed.

Section MeasureFacts.
Context {image matrix contour : Type} {cv : OpenCV image matrix contour}.

Lemma measure_leaf_length_inv
    (img : option image) (crop : option (list point))
    (card : list point) (leaves : list leaf) (r : response) :
  measure_leaf_length img crop card leaves = Ok r ->
  let scale := distance (row card 0) (row card 1) / CARD_WIDTH_MM in
  let lengths := map (fun l => round1 (pixel_distance l / scale / 10)) leaves in
  let avg := round1 (py_sum lengths / INR (length lengths)) in
  length card = 4%nat /\ (1 <= length leaves <= 3)%nat /\
  validate_leaves 0 leaves = Ok tt /\
  0 < scale /\
  r = {| leaf_lengths_cm := lengths;
         avg_leaf_length_cm := avg;
         stage := maturity_stage avg;
         confidence_status := fst (confidence_of lengths avg);
         retake_message := snd (confidence_of lengths avg) |}.
Proof.
  unfold measure_leaf_length.
  destruct (Nat.eqb (length card) 4) eqn:Hcard; [|discriminate].
  apply Nat.eqb_eq in Hcard. cbn [negb].
  destruct (Nat.ltb (length leaves) 1) eqn:H1; [discriminate|].
  destruct (Nat.ltb 3 (length leaves)) eqn:H3; [discriminate|].
  apply Nat.ltb_ge in H1, H3. cbn [orb].
  destruct (validate_leaves 0 leaves) as [[]|e] eqn:Hv; [|discriminate].
  cbn [bind].
  match goal with
  | |- bind ?c _ = _ -> _ => destruct c as [[]|e]; [|discriminate]
  end.
  cbn [bind].
  destruct (Rle_dec _ 0) as [Hle|Hgt]; [discriminate|].
  replace 10.0 with 10 by lra.
  destruct (confidence_of _ _) as [cs msg] eqn:Hconf.
  intros H. injection H as <-. cbn [fst snd].
  repeat split; auto; lra.
Qed.

Lemma measure_leaf_length_no_crop
    (img : option image) (card : list point) (leaves : list leaf) :
  length card = 4%nat -> (1 <= length leaves <= 3)%nat ->
  validate_leaves 0 leaves = Ok tt ->
  row card 0 <> row card 1 ->
  let scale := distance (row card 0) (row card 1) / CARD_WIDTH_MM in
  let lengths := map (fun l => round1 (pixel_distance l / scale / 10)) leaves in
  let avg := round1 (py_sum lengths / INR (length lengths)) in
  measure_leaf_length img None card leaves =
  Ok {| leaf_lengths_cm := lengths;
        avg_leaf_length_cm := avg;
        stage := maturity_stage avg;
        confidence_status := fst (confidence_of lengths avg);
        retake_message := snd (confidence_of lengths avg) |}.
Proof.
  intros Hcard [H1 H3] Hv Hne. unfold measure_leaf_length.
  rewrite Hcard. cbn [Nat.eqb negb].
  apply Nat.ltb_ge in H1, H3. rewrite H1, H3. cbn [orb].
  rewrite Hv. cbn [bind].
  pose proof (distance_pos _ _ Hne) as Hpos.
  destruct (Rle_dec _ 0) as [Hle|Hgt].
  - exfalso.
    assert (0 < distance (row card 0) (row card 1) / CARD_WIDTH_MM)
      by (apply Rdiv_lt_0_compat; [exact Hpos|unfold CARD_WIDTH_MM; lra]).
    lra.
  - replace 10.0 with 10 by lra.
    now destruct (confidence_of _ _).
Qed.
End MeasureFacts.

(** ** Running the handler on the example card *)

Lemma maturity_stage_low (avg : R) : avg < 18 -> maturity_stage avg = NOT_MATURE.
Proof. intros H. unfold maturity_stage, L1, L2. decide_R. reflexivity. Qed.

Lemma maturity_stage_mid (avg : R) :
  18 <= avg < 25 -> maturity_stage avg = INTERMEDIATE.
Proof. intros H. unfold maturity_stage, L1, L2. decide_R. reflexivity. Qed.

Lemma maturity_stage_high (avg : R) : 25 <= avg -> maturity_stage avg = MATURE.
Proof. intros H. unfold maturity_stage, L1, L2. decide_R. reflexivity. Qed.


Lemma measure_card_relisted :
  measure_leaf_length no_image None card_relisted leaf_1200 = Ok response_19cm.
Proof.
  rewrite measure_leaf_length_no_crop;
    [|reflexivity|cbn; lia|reflexivity|cbn; intros H; injection H; lra].
  cbn [card_relisted leaf_1200 map length pixel_distance row nth INR].
  rewrite distance_horizontal, distance_vertical by lra. unfold CARD_WIDTH_MM.
  assert (E : round1 ((1200 - 0) / ((540 - 0) / 85.60) / 10) = 19)
    by (rewrite (round1_eq _ 190); lra).
  rewrite E. rewrite py_sum_cons, py_sum_nil.
  assert (E' : round1 ((19 + 0) / 1) = 19) by (rewrite (round1_eq _ 190); lra).
  rewrite E'. rewrite maturity_stage_mid by lra. reflexivity.
Qed.

Section CardOrder.
Context {image matrix contour : Type} {cv : OpenCV image matrix contour}.

End CardOrder.




(** C3.  The stage is a function of the average length alone, with
    inclusive lower boundaries: below 18.0 NOT_MATURE, from 18.0 and below
    25.0 INTERMEDIATE, from 25.0 MATURE; so 17.9 is NOT_MATURE, 18.0 and
    24.9 are INTERMEDIATE and 25.0 is MATURE.  The stage of a response is
    that function of its average. *)
Theorem maturity_stage_boundaries
    {image matrix contour : Type} {cv : OpenCV image matrix contour} :
  (forall avg, avg < 18.0 -> maturity_stage avg = NOT_MATURE) /\
  (forall avg, 18.0 <= avg < 25.0 -> maturity_stage avg = INTERMEDIATE) /\
  (forall avg, 25.0 <= avg -> maturity_stage avg = MATURE) /\
  maturity_stage 17.9 = NOT_MATURE /\
  maturity_stage 18.0 = INTERMEDIATE /\
  maturity_stage 24.9 = INTERMEDIATE /\
  maturity_stage 25.0 = MATURE /\
  (forall (img : option image) crop card leaves r,
     measure_leaf_length img crop card leaves = Ok r ->
     stage r = maturity_stage (avg_leaf_length_cm r)).
Proof.
  repeat split.
  - intros avg H. apply maturity_stage_low. lra.
  - intros avg H. apply maturity_stage_mid. lra.
  - intros avg H. apply maturity_stage_high. lra.
  - apply maturity_stage_low. lra.
  - apply maturity_stage_mid. lra.
  - apply maturity_stage_mid. lra.
  - apply maturity_stage_high. lra.
  - intros img crop card leaves r Hr.
    destruct (measure_leaf_length_inv _ _ _ _ _ Hr) as (_ & _ & _ & _ & ->).
    reflexivity.
Qed.

Lemma maturity_stage_boundaries_witness :
  measure_leaf_length no_image None card_relisted leaf_1200 = Ok response_19cm /\
  18.0 <= 19 < 25.0 /\
  stage response_19cm = maturity_stage 19 /\
  maturity_stage 19 = INTERMEDIATE.
Proof.
  destruct (@maturity_stage_boundaries _ _ _ demo_cv)
    as (_ & Hmid & _ & _ & _ & _ & _ & Hresp).
  split; [exact measure_card_relisted|]. split; [lra|]. split.
  - exact (Hresp no_image None card_relisted leaf_1200 response_19cm
             measure_card_relisted).
  - apply Hmid. lra.
Defined.

Lemma distance_3_4_5 : distance (mkPoint 0 0) (mkPoint 300 400) = 500.
Proof.
  unfold distance; cbn [px py].
  replace ((300 - 0) ^ 2 + (400 - 0) ^ 2) with (500 * 500) by ring.
  apply sqrt_square. lra.
Qed.

Lemma pixel_distance_traced_curve :
  pixel_distance (LeafPoints traced_curve) = 1500.
Proof.
  cbn [pixel_distance]. rewrite curve_distance_polyline.
  unfold traced_curve. rewrite !polyline_length_step. cbn [polyline_length].
  rewrite distance_3_4_5, distance_vertical by lra. ring.
Qed.

Lemma std_dev_two_leaves : std_dev_about 16.1 [15; 17.2] = 1.1.
Proof.
  unfold std_dev_about. cbn [map length INR].
  rewrite !py_sum_cons, py_sum_nil.
  replace (((15 - 16.1) ^ 2 + ((17.2 - 16.1) ^ 2 + 0)) / (1 + 1))
    with (1.1 * 1.1) by (cbn [pow]; lra).
  apply sqrt_square. lra.
Qed.

Lemma measure_two_leaves :
  measure_leaf_length no_image None card_ordered two_leaves =
  Ok response_two_leaves.
Proof.
  rewrite measure_leaf_length_no_crop;
    [|reflexivity|cbn; lia|reflexivity|cbn; intros H; injection H; lra].
  unfold two_leaves. cbn [map length]. rewrite pixel_distance_traced_curve.
  cbn [card_ordered pixel_distance row nth INR].
  rewrite !distance_horizontal by lra. unfold CARD_WIDTH_MM.
  assert (E1 : round1 (1500 / ((856 - 0) / 85.60) / 10) = 15)
    by (rewrite (round1_eq _ 150); lra).
  assert (E2 : round1 ((1724 - 0) / ((856 - 0) / 85.60) / 10) = 17.2)
    by (rewrite (round1_eq _ 172); lra).
  rewrite E1, E2. rewrite !py_sum_cons, py_sum_nil.
  assert (E : round1 ((15 + (17.2 + 0)) / (1 + 1)) = 16.1)
    by (rewrite (round1_eq _ 161); lra).
  rewrite E. rewrite maturity_stage_low by lra.
  unfold confidence_of. cbn [length Nat.eqb Nat.leb].
  rewrite std_dev_two_leaves. decide_R. reflexivity.
Qed.


Lemma round1_one_decimal (x : R) : one_decimal (round1 x).
Proof. now exists (round_half_even (x * 10)). Qed.




Lemma polyline_length_nonneg (points : list point) : 0 <= polyline_length points.
Proof.
  induction points as [|p t IH]; [cbn; lra|].
  destruct t as [|q t']; [cbn; lra|].
  rewrite polyline_length_step. pose proof (distance_nonneg p q). lra.
Qed.

Lemma pixel_distance_nonneg (l : leaf) : 0 <= pixel_distance l.
Proof.
  destruct l as [points|base tip]; cbn [pixel_distance].
  - rewrite curve_distance_polyline. apply polyline_length_nonneg.
  - apply distance_nonneg.
Qed.




Lemma confidence_of_rule (lengths : list R) (avg : R) :
  (1 <= length lengths)%nat ->
  confidence_of lengths avg =
  confidence_rule (length lengths) (std_dev_about avg lengths).
Proof.
  intros Hlen. unfold confidence_of, confidence_rule.
  destruct (Nat.eqb (length lengths) 1) eqn:H1; [reflexivity|].
  apply Nat.eqb_neq in H1.
  assert (Nat.leb 2 (length lengths) = true) as -> by (apply Nat.leb_le; lia).
  reflexivity.
Qed.

(** ** The dispersion about the rounded average

    The handler centres the variance on the rounded average.  For two or
    three lengths with one decimal this never moves the standard deviation
    across a whole-number threshold: in tenths, the sum of squares about the
    rounded average and the deviation of that average have the same
    parity. *)

















(** ** The assessment is made on the rounded lengths *)









(** ** sorted(..., reverse=True) *)

Section SortedReverseFacts.
Context {A : Type} (key : A -> R).

Let desc (c d : A) : Prop := key d <= key c.

Lemma insert_desc_perm (c : A) (l : list A) :
  Permutation (c :: l) (insert_desc key c l).
Proof.
  induction l as [|d t IH]; cbn [insert_desc]; [apply Permutation_refl|].
  destruct (Rlt_dec (key c) (key d)); [|apply Permutation_refl].
  eapply perm_trans; [apply perm_swap|]. now apply perm_skip.
Qed.

Lemma sorted_reverse_perm (l : list A) : Permutation l (sorted_reverse key l).
Proof.
  induction l as [|c t IH]; cbn [sorted_reverse fold_right]; [constructor|].
  eapply perm_trans; [apply perm_skip, IH|apply insert_desc_perm].
Qed.

Lemma insert_desc_sorted (c : A) (l : list A) :
  StronglySorted desc l -> StronglySorted desc (insert_desc key c l).
Proof.
  induction 1 as [|d t Hs IH Hd]; cbn [insert_desc].
  - repeat constructor.
  - destruct (Rlt_dec (key c) (key d)) as [Hlt|Hge].
    + constructor; [exact IH|].
      apply (Permutation_Forall (insert_desc_perm c t)).
      constructor; [unfold desc; lra|exact Hd].
    + constructor; [now constructor|].
      constructor; [unfold desc; lra|].
      apply (Forall_impl _ (P := desc d)); [|exact Hd].
      unfold desc. intros e He. lra.
Qed.

Lemma sorted_reverse_sorted (l : list A) :
  StronglySorted desc (sorted_reverse key l).
Proof.
  induction l as [|c t IH]; cbn [sorted_reverse fold_right]; [constructor|].
  now apply insert_desc_sorted.
Qed.
End SortedReverseFacts.

(** ** detect_credit_card *)

Section DetectFacts.
Context {image matrix contour : Type} {cv : OpenCV image matrix contour}.

Lemma target_out_of_tolerance :
  ~ Rabs (0 - TARGET_ASPECT_RATIO) < ASPECT_RATIO_TOLERANCE.
Proof.
  unfold TARGET_ASPECT_RATIO, ASPECT_RATIO_TOLERANCE. intros H.
  apply Rabs_def2 in H. lra.
Qed.

(** One turn of the loop on a contour that is not a candidate. *)
Lemma detect_loop_skip (c : contour) (rest : list contour) :
  ~ card_like c -> detect_loop (c :: rest) = detect_loop rest.
Proof.
  intros Hno. cbn [detect_loop]. fold (approx_polygon c).
  destruct (Nat.eqb (length (approx_polygon c)) 4) eqn:Hlen; [|reflexivity].
  apply Nat.eqb_eq in Hlen.
  destruct (boundingRect (approx_polygon c)) as [[[x y] w] h] eqn:Hbox.
  destruct (Rlt_dec _ _) as [Hin|Hout]; [|reflexivity].
  exfalso. apply Hno. unfold card_like. rewrite Hbox. split; [exact Hlen|].
  destruct (Z.ltb 0 h) eqn:Hh.
  - apply Z.ltb_lt in Hh. split; [exact Hh|exact Hin].
  - exfalso. now apply target_out_of_tolerance.
Qed.

(** One turn of the loop on a candidate. *)
Lemma detect_loop_accept (c : contour) (rest : list contour) :
  card_like c ->
  exists q, order_points (approx_polygon c) = Ok q /\
            detect_loop (c :: rest) = Ok (Some q).
Proof.
  intros [Hlen Hbox]. cbn [detect_loop]. fold (approx_polygon c).
  destruct (boundingRect (approx_polygon c)) as [[[x y] w] h].
  destruct Hbox as [Hh Hin].
  rewrite Hlen. cbn [Nat.eqb].
  apply Z.ltb_lt in Hh. rewrite Hh.
  destruct (Rlt_dec _ _) as [_|Hout]; [|now exfalso].
  unfold order_points. rewrite Hlen. cbn [Nat.eqb bind].
  eexists. split; reflexivity.
Qed.

Lemma detect_loop_none (cs : list contour) :
  (forall c, In c cs -> ~ card_like c) -> detect_loop cs = Ok None.
Proof.
  induction cs as [|c rest IH]; intros Hno; [reflexivity|].
  rewrite detect_loop_skip by (apply Hno; now left).
  apply IH. intros d Hd. apply Hno. now right.
Qed.

Lemma detect_loop_first (before after : list contour) (c : contour) :
  (forall d, In d before -> ~ card_like d) -> card_like c ->
  exists q, order_points (approx_polygon c) = Ok q /\
            detect_loop (before ++ c :: after) = Ok (Some q).
Proof.
  induction before as [|d rest IH]; intros Hno Hc; cbn [app].
  - now apply detect_loop_accept.
  - rewrite detect_loop_skip by (apply Hno; now left).
    apply IH; [|exact Hc]. intros e He. apply Hno. now right.
Qed.

Lemma detect_loop_never_fails (cs : list contour) (e : error) :
  detect_loop cs <> Err e.
Proof.
  induction cs as [|c rest IH]; [discriminate|].
  cbn [detect_loop].
  destruct (Nat.eqb (length _) 4) eqn:Hlen; [|exact IH].
  destruct (boundingRect _) as [[[x y] w] h].
  destruct (Rlt_dec _ _); [|exact IH].
  unfold order_points. rewrite Hlen. discriminate.
Qed.

Lemma detect_loop_some (cs : list contour) (q : quad) :
  detect_loop cs = Ok (Some q) ->
  exists before c after,
    cs = before ++ c :: after /\
    (forall d, In d before -> ~ card_like d) /\ card_like c /\
    order_points (approx_polygon c) = Ok q.
Proof.
  induction cs as [|c rest IH]; intros H; [discriminate|].
  assert (Hdec : card_like c \/ ~ card_like c).
  { unfold card_like.
    destruct (Nat.eq_dec (length (approx_polygon c)) 4) as [Hl|Hl];
      [|right; tauto].
    destruct (boundingRect (approx_polygon c)) as [[[x y] w] h].
    destruct (Z_lt_dec 0 h) as [Hh|Hh]; [|right; tauto].
    destruct (Rlt_dec (Rabs (IZR w / IZR h - 85.60 / 53.98)) 0.3);
      [left|right]; tauto. }
  destruct Hdec as [Hc|Hno].
  - destruct (detect_loop_accept c rest Hc) as (q' & Hq' & Hrun).
    rewrite Hrun in H. injection H as ->.
    exists [], c, rest.
    split; [reflexivity|]. split; [intros d []|]. split; assumption.
  - rewrite (detect_loop_skip c rest Hno) in H.
    destruct (IH H) as (before & c' & after & -> & Hbefore & Hc' & Hq).
    exists (c :: before), c', after.
    split; [reflexivity|]. split; [|split; assumption].
    intros d [<-|Hd]; auto.
Qed.
End DetectFacts.

(** ** The sum/difference rule *)

Lemma order_points_rule (pts : list point) (q : quad) :
  order_points pts = Ok q ->
  length pts = 4%nat /\
  In (tl q) pts /\ In (tr q) pts /\ In (br q) pts /\ In (bl q) pts /\
  (forall p, In p pts -> pt_sum (tl q) <= pt_sum p <= pt_sum (br q)) /\
  (forall p, In p pts -> pt_diff (tr q) <= pt_diff p <= pt_diff (bl q)).
Proof.
  unfold order_points.
  destruct (Nat.eqb (length pts) 4) eqn:Hlen; [|discriminate].
  apply Nat.eqb_eq in Hlen. intros H. injection H as <-. cbn [tl tr br bl].
  assert (Hne : pts <> []) by (intros ->; discriminate).
  destruct (row_argmin pt_sum pts Hne) as [I1 M1].
  destruct (row_argmax pt_sum pts Hne) as [I2 M2].
  destruct (row_argmin pt_diff pts Hne) as [I3 M3].
  destruct (row_argmax pt_diff pts Hne) as [I4 M4].
  repeat split; auto.
Qed.

(** ** The bounding box of the symbolic OpenCV on concrete polygons *)

Lemma fold_Rmin_spec (l : list R) (d : R) :
  In (fold_right Rmin d l) (d :: l) /\
  forall x, In x (d :: l) -> fold_right Rmin d l <= x.
Proof.
  induction l as [|a t [IHin IHle]]; cbn [fold_right].
  - split; [now left|]. intros x [<-|[]]. lra.
  - generalize dependent (fold_right Rmin d t). intros m IHin IHle.
    unfold Rmin. destruct (Rle_dec a m) as [H|H].
    + split; [right; now left|].
      intros x [<-|[<-|Hx]]; [|lra|].
      * specialize (IHle d (or_introl eq_refl)). lra.
      * specialize (IHle x (or_intror Hx)). lra.
    + split.
      * destruct IHin as [Hd|Ht]; [now left|right; now right].
      * intros x [<-|[<-|Hx]]; [apply IHle; now left|lra|].
        apply IHle. now right.
Qed.

Lemma fold_Rmax_spec (l : list R) (d : R) :
  In (fold_right Rmax d l) (d :: l) /\
  forall x, In x (d :: l) -> x <= fold_right Rmax d l.
Proof.
  induction l as [|a t [IHin IHle]]; cbn [fold_right].
  - split; [now left|]. intros x [<-|[]]. lra.
  - generalize dependent (fold_right Rmax d t). intros m IHin IHle.
    unfold Rmax. destruct (Rle_dec a m) as [H|H].
    + split.
      * destruct IHin as [Hd|Ht]; [now left|right; now right].
      * intros x [<-|[<-|Hx]]; [apply IHle; now left|lra|].
        apply IHle. now right.
    + split; [right; now left|].
      intros x [<-|[<-|Hx]]; [|lra|].
      * specialize (IHle d (or_introl eq_refl)). lra.
      * specialize (IHle x (or_intror Hx)). lra.
Qed.

Lemma fold_Rmin_eq (l : list R) (d m : R) :
  In m (d :: l) -> (forall x, In x (d :: l) -> m <= x) ->
  fold_right Rmin d l = m.
Proof.
  intros Hin Hle. destruct (fold_Rmin_spec l d) as [Hin' Hle'].
  apply Rle_antisym; auto.
Qed.

Lemma fold_Rmax_eq (l : list R) (d m : R) :
  In m (d :: l) -> (forall x, In x (d :: l) -> x <= m) ->
  fold_right Rmax d l = m.
Proof.
  intros Hin Hle. destruct (fold_Rmax_spec l d) as [Hin' Hle'].
  apply Rle_antisym; auto.
Qed.

Ltac bound_of_list :=
  first
    [ solve [cbn [In]; repeat first [left; reflexivity | right]]
    | let x := fresh "x" in
      let Hx := fresh "Hx" in
      intros x Hx; cbn [In] in Hx;
      repeat match goal with
             | H : _ \/ _ |- _ => destruct H as [H|H]
             | H : False |- _ => destruct H
             end; subst; lra ].

Lemma boundingRect_card_outline :
  demo_boundingRect (dc_polygon card_outline) = (100, 100, 172, 108)%Z.
Proof.
  unfold demo_boundingRect, card_outline, dc_polygon. cbn [map px py].
  rewrite (fold_Rmin_eq [100; 271; 100] 271 100),
          (fold_Rmax_eq [100; 271; 100] 271 271),
          (fold_Rmin_eq [100; 100; 207] 207 100),
          (fold_Rmax_eq [100; 100; 207] 207 207);
    try bound_of_list.
  rewrite (Int_part_eq 100 100), (Int_part_eq 271 271),
          (Int_part_eq 207 207) by lra.
  reflexivity.
Qed.

Lemma boundingRect_frame_outline :
  demo_boundingRect (dc_polygon frame_outline) = (300, 300, 201, 201)%Z.
Proof.
  unfold demo_boundingRect, frame_outline, dc_polygon, rect_corners.
  cbn [map px py].
  rewrite (fold_Rmin_eq [500; 500; 300] 300 300),
          (fold_Rmax_eq [500; 500; 300] 300 500),
          (fold_Rmin_eq [300; 500; 500] 300 300),
          (fold_Rmax_eq [300; 500; 500] 300 500);
    try bound_of_list.
  rewrite (Int_part_eq 300 300), (Int_part_eq 500 500) by lra.
  reflexivity.
Qed.

Lemma card_outline_card_like : card_like card_outline.
Proof.
  unfold card_like, approx_polygon. cbn [approxPolyDP boundingRect demo_cv].
  rewrite boundingRect_card_outline. split; [reflexivity|]. split; [lia|].
  apply Rabs_def1; lra.
Qed.

Lemma frame_outline_not_card_like : ~ card_like frame_outline.
Proof.
  unfold card_like, approx_polygon. cbn [approxPolyDP boundingRect demo_cv].
  rewrite boundingRect_frame_outline. intros (_ & _ & H).
  apply Rabs_def2 in H. lra.
Qed.

Lemma order_points_card_outline :
  order_points (approx_polygon card_outline) = Ok detected_card.
Proof.
  unfold approx_polygon. cbn [approxPolyDP demo_cv card_outline dc_polygon].
  rewrite <- (order_points_perm (rect_corners 100 100 271 207)).
  - apply order_points_rect; lra.
  - unfold rect_corners.
    apply (Permutation_cons_app [mkPoint 271 207]
             [mkPoint 271 100; mkPoint 100 207]).
    apply (Permutation_cons_app [mkPoint 271 207] [mkPoint 100 207]).
    apply Permutation_refl.
  - apply rect_no_extreme_ties; lra.
Qed.

Lemma examined_photo_with_card :
  firstn 10 (sorted_reverse contourArea (edge_contours photo_with_card)) =
  [frame_outline] ++ card_outline :: [].
Proof.
  unfold edge_contours, photo_with_card.
  cbn [cvtColor_gray GaussianBlur Canny findContours_external demo_cv
       demo_contours sorted_reverse fold_right insert_desc].
  cbn [contourArea demo_cv card_outline frame_outline dc_area].
  decide_R. reflexivity.
Qed.

(** C8.  [detect_credit_card] never raises: it returns a quadrilateral or
    None.  It looks at the first 10 contours in order of decreasing area,
    at most 10 and the largest ones; it skips every contour whose polygon
    approximation has not 4 vertices or whose bounding box has an aspect
    ratio w/h not within 0.3 of 85.60/53.98; it returns the points of the
    first remaining candidate, ordered by the sum/difference rule; and it
    returns None exactly when none of the examined contours is a
    candidate. *)
Theorem detect_credit_card_first_candidate
    {image matrix contour : Type} {cv : OpenCV image matrix contour}
    (img : image) :
  let by_area := sorted_reverse contourArea (edge_contours img) in
  let examined := firstn 10 by_area in
  let rest := skipn 10 by_area in
  (forall e, detect_credit_card img <> Err e) /\
  (length examined <= 10)%nat /\
  Permutation (edge_contours img) (examined ++ rest) /\
  StronglySorted area_desc (examined ++ rest) /\
  (forall c d, In c examined -> In d rest -> contourArea d <= contourArea c) /\
  (detect_credit_card img = Ok None <->
   forall c, In c examined -> ~ card_like c) /\
  (forall q,
     detect_credit_card img = Ok (Some q) <->
     exists before c after,
       examined = before ++ c :: after /\
       (forall d, In d before -> ~ card_like d) /\ card_like c /\
       order_points (approx_polygon c) = Ok q) /\
  (forall q,
     detect_credit_card img = Ok (Some q) ->
     exists c, In c examined /\ card_like c /\
       let pts := approx_polygon c in
       In (tl q) pts /\ In (tr q) pts /\ In (br q) pts /\ In (bl q) pts /\
       (forall p, In p pts -> pt_sum (tl q) <= pt_sum p <= pt_sum (br q)) /\
       (forall p, In p pts -> pt_diff (tr q) <= pt_diff p <= pt_diff (bl q))).
Proof.
  intros by_area examined rest.
  assert (Hrun : detect_credit_card img = detect_loop examined) by reflexivity.
  assert (Hsplit : examined ++ rest = by_area) by apply firstn_skipn.
  assert (Hsorted : StronglySorted area_desc (examined ++ rest)).
  { rewrite Hsplit. apply (sorted_reverse_sorted contourArea). }
  assert (Hsome : forall q,
     detect_credit_card img = Ok (Some q) <->
     exists before c after,
       examined = before ++ c :: after /\
       (forall d, In d before -> ~ card_like d) /\ card_like c /\
       order_points (approx_polygon c) = Ok q).
  { intros q. rewrite Hrun. split.
    - apply detect_loop_some.
    - intros (before & c & after & -> & Hb & Hc & Hq).
      destruct (detect_loop_first before after c Hb Hc) as (q' & Hq' & ->).
      rewrite Hq in Hq'. now injection Hq' as ->. }
  split; [intros e; rewrite Hrun; apply detect_loop_never_fails|].
  split; [apply firstn_le_length|].
  split; [rewrite Hsplit; apply sorted_reverse_perm|].
  split; [exact Hsorted|]. split.
  - intros c d Hc Hd. clear Hsplit Hrun Hsome.
    induction examined as [|e t IH]; [destruct Hc|].
    cbn [app] in Hsorted. inversion Hsorted as [|? ? Ht He]; subst.
    destruct Hc as [<-|Hc]; [|now apply IH].
    rewrite Forall_forall in He. apply (He d), in_or_app. now right.
  - split; [|split; [exact Hsome|]].
    + rewrite Hrun. split; [|apply detect_loop_none].
      intros Hnone c Hc Hlike.
      destruct (in_split _ _ Hc) as (l1 & l2 & E).
      assert (Hfirst : exists q, detect_loop examined = Ok (Some q)).
      { clear Hc Hsorted Hsome Hsplit Hrun Hnone. revert l1 E.
        induction examined as [|e t IH]; intros l1 E.
        - now destruct l1.
        - destruct (detect_loop (e :: t)) as [[q|]|err] eqn:Hd.
          + now exists q.
          + exfalso.
            destruct l1 as [|e' l1']; cbn [app] in E; injection E as -> E.
            * destruct (detect_loop_accept c t Hlike) as (q & _ & Hq).
              rewrite Hq in Hd. discriminate.
            * destruct (IH l1' E) as (q & Hq).
              cbn [detect_loop] in Hd. fold (approx_polygon e') in Hd.
              destruct (Nat.eqb (length (approx_polygon e')) 4) eqn:Hlen;
                [|rewrite Hq in Hd; discriminate].
              destruct (boundingRect (approx_polygon e')) as [[[x y] w] h].
              destruct (Rlt_dec _ _); [|rewrite Hq in Hd; discriminate].
              unfold order_points in Hd. rewrite Hlen in Hd. discriminate.
          + exfalso. exact (detect_loop_never_fails _ _ Hd). }
      destruct Hfirst as (q & Hq). rewrite Hq in Hnone. discriminate.
    + intros q Hq. apply Hsome in Hq.
      destruct Hq as (before & c & after & E & _ & Hc & Ho).
      exists c. split; [rewrite E; apply in_elt|]. split; [exact Hc|].
      destruct (order_points_rule _ _ Ho) as (_ & H). exact H.
Qed.

Lemma detect_credit_card_first_candidate_witness :
  firstn 10 (sorted_reverse contourArea (edge_contours photo_with_card)) =
    [frame_outline] ++ card_outline :: [] /\
  (forall d, In d [frame_outline] -> ~ card_like d) /\
  card_like card_outline /\
  order_points (approx_polygon card_outline) = Ok detected_card /\
  detect_credit_card photo_with_card = Ok (Some detected_card).
Proof.
  assert (Hb : forall d, In d [frame_outline] -> ~ card_like d).
  { intros d [<-|[]]. exact frame_outline_not_card_like. }
  split; [exact examined_photo_with_card|]. split; [exact Hb|].
  split; [exact card_outline_card_like|].
  split; [exact order_points_card_outline|].
  destruct (detect_credit_card_first_candidate photo_with_card)
    as (_ & _ & _ & _ & _ & _ & Hsome & _).
  apply Hsome. exists [frame_outline], card_outline, [].
  split; [exact examined_photo_with_card|]. split; [exact Hb|].
  split; [exact card_outline_card_like|exact order_points_card_outline].
Defined.

(** * Further properties of the harvest API *)

(** ** Rounding is monotone and fixes values that are already rounded *)

Lemma round_half_even_mono (y y' : R) :
  y <= y' -> (round_half_even y <= round_half_even y')%Z.
Proof.
  intros Hle.
  destruct (Z_le_gt_dec (round_half_even y) (round_half_even y')) as [H|H];
    [exact H|exfalso].
  pose proof (round_half_even_near y) as Hy.
  pose proof (round_half_even_near y') as Hy'.
  assert (Hz : IZR (round_half_even y' + 1) <= IZR (round_half_even y))
    by (apply IZR_le; lia).
  rewrite plus_IZR in Hz.
  assert (E : y = y') by lra. subst y'. lia.
Qed.

Lemma round1_mono (x x' : R) : x <= x' -> round1 x <= round1 x'.
Proof.
  intros H. unfold round1.
  assert (Hz : (round_half_even (x * 10) <= round_half_even (x' * 10))%Z)
    by (apply round_half_even_mono; lra).
  apply IZR_le in Hz. lra.
Qed.

Lemma round1_fixes_one_decimal (x : R) : one_decimal x -> round1 x = x.
Proof. intros [n ->]. apply round1_eq. lra. Qed.

Lemma round2_fixes_cents (n : Z) : round2 (IZR n / 100) = IZR n / 100.
Proof.
  unfold round2. rewrite (round_half_even_eq _ n); [reflexivity|lra].
Qed.

Lemma round1_nonneg (x : R) : 0 <= x -> 0 <= round1 x.
Proof.
  intros H. replace 0 with (round1 0) at 1.
  - now apply round1_mono.
  - rewrite (round1_eq 0 0); lra.
Qed.

(** ** Sums, means and extremes of lists *)

Lemma py_sum_le_bound (l : list R) (m : R) :
  (forall x, In x l -> x <= m) -> py_sum l <= INR (length l) * m.
Proof.
  induction l as [|a t IH]; intros H.
  - rewrite py_sum_nil. cbn. lra.
  - rewrite py_sum_cons.
    change (length (a :: t)) with (S (length t)). rewrite S_INR.
    pose proof (H a (or_introl eq_refl)).
    assert (py_sum t <= INR (length t) * m) by (apply IH; intros; apply H; now right).
    lra.
Qed.

Lemma py_sum_ge_bound (l : list R) (m : R) :
  (forall x, In x l -> m <= x) -> INR (length l) * m <= py_sum l.
Proof.
  induction l as [|a t IH]; intros H.
  - rewrite py_sum_nil. cbn. lra.
  - rewrite py_sum_cons.
    change (length (a :: t)) with (S (length t)). rewrite S_INR.
    pose proof (H a (or_introl eq_refl)).
    assert (INR (length t) * m <= py_sum t) by (apply IH; intros; apply H; now right).
    lra.
Qed.

Lemma INR_length_pos {A : Type} (l : list A) : l <> [] -> 0 < INR (length l).
Proof.
  intros H. destruct l; [contradiction|].
  change (length (a :: l)) with (S (length l)). rewrite S_INR.
  pose proof (pos_INR (length l)). lra.
Qed.

Lemma mean_between (l : list R) (lo hi : R) :
  l <> [] -> (forall x, In x l -> lo <= x <= hi) -> lo <= mean l <= hi.
Proof.
  intros Hne H. unfold mean.
  pose proof (INR_length_pos l Hne) as Hn.
  pose proof (py_sum_le_bound l hi (fun x Hx => proj2 (H x Hx))) as Hhi.
  pose proof (py_sum_ge_bound l lo (fun x Hx => proj1 (H x Hx))) as Hlo.
  split.
  - apply (Rmult_le_reg_r (INR (length l))); [exact Hn|].
    unfold Rdiv. rewrite Rmult_assoc, Rinv_l by lra. lra.
  - apply (Rmult_le_reg_r (INR (length l))); [exact Hn|].
    unfold Rdiv. rewrite Rmult_assoc, Rinv_l by lra. lra.
Qed.

Lemma py_max_list_spec (l : list R) :
  l <> [] -> In (py_max_list l) l /\ forall x, In x l -> x <= py_max_list l.
Proof.
  destruct l as [|a t]; [contradiction|]. intros _. cbn [py_max_list].
  revert a. induction t as [|b t IH]; intros a; cbn [fold_left].
  - split; [now left|]. intros x [<-|[]]. lra.
  - destruct (IH (py_max a b)) as [Hin Hle]. unfold py_max in *.
    destruct (Rlt_dec a b) as [Hab|Hab].
    + split.
      * destruct Hin as [<-|Hin]; [right; now left|right; now right].
      * intros x [<-|[<-|Hx]].
        -- specialize (Hle b (or_introl eq_refl)). lra.
        -- apply Hle. now left.
        -- apply Hle. now right.
    + split.
      * destruct Hin as [<-|Hin]; [now left|right; now right].
      * intros x [<-|[<-|Hx]].
        -- apply Hle. now left.
        -- specialize (Hle a (or_introl eq_refl)). lra.
        -- apply Hle. now right.
Qed.

Lemma py_min_list_spec (l : list R) :
  l <> [] -> In (py_min_list l) l /\ forall x, In x l -> py_min_list l <= x.
Proof.
  destruct l as [|a t]; [contradiction|]. intros _. cbn [py_min_list].
  revert a. induction t as [|b t IH]; intros a; cbn [fold_left].
  - split; [now left|]. intros x [<-|[]]. lra.
  - destruct (IH (py_min a b)) as [Hin Hle]. unfold py_min in *.
    destruct (Rlt_dec b a) as [Hab|Hab].
    + split.
      * destruct Hin as [<-|Hin]; [right; now left|right; now right].
      * intros x [<-|[<-|Hx]].
        -- specialize (Hle b (or_introl eq_refl)). lra.
        -- apply Hle. now left.
        -- apply Hle. now right.
    + split.
      * destruct Hin as [<-|Hin]; [now left|right; now right].
      * intros x [<-|[<-|Hx]].
        -- apply Hle. now left.
        -- specialize (Hle a (or_introl eq_refl)). lra.
        -- apply Hle. now right.
Qed.

(** ** Lengths reported by measure_leaf_length *)

Lemma raw_length_nonneg (l : leaf) (scale : R) :
  0 < scale -> 0 <= pixel_distance l / scale / 10.
Proof.
  intros Hs. pose proof (pixel_distance_nonneg l) as Hp.
  unfold Rdiv. apply Rmult_le_pos; [apply Rmult_le_pos|]; try lra.
  apply Rlt_le, Rinv_0_lt_compat, Hs.
Qed.

(** X3.  In every response of [measure_leaf_length] the lengths are
    non-negative values with one decimal, and the reported average has one
    decimal and lies between the smallest and the largest reported
    length. *)
Theorem reported_average_within_lengths
    {image matrix contour : Type} {cv : OpenCV image matrix contour}
    (img : option image) (crop : option (list point))
    (card : list point) (leaves : list leaf) (r : response) :
  measure_leaf_length img crop card leaves = Ok r ->
  Forall (fun x => 0 <= x /\ one_decimal x) (leaf_lengths_cm r) /\
  one_decimal (avg_leaf_length_cm r) /\
  exists lo hi,
    In lo (leaf_lengths_cm r) /\ In hi (leaf_lengths_cm r) /\
    (forall x, In x (leaf_lengths_cm r) -> lo <= x <= hi) /\
    lo <= avg_leaf_length_cm r <= hi.
Proof.
  intros Hr.
  destruct (measure_leaf_length_inv _ _ _ _ _ Hr) as (_ & Hn & _ & Hpos & ->).
  cbn [leaf_lengths_cm avg_leaf_length_cm].
  set (lengths := map _ leaves).
  assert (Hall : Forall (fun x => 0 <= x /\ one_decimal x) lengths).
  { apply Forall_map, Forall_forall. intros l _. split.
    - apply round1_nonneg, raw_length_nonneg, Hpos.
    - apply round1_one_decimal. }
  assert (Hne : lengths <> []).
  { intros E. apply (f_equal (@length R)) in E. unfold lengths in E.
    rewrite length_map in E. cbn in E. lia. }
  split; [exact Hall|]. split; [apply round1_one_decimal|].
  destruct (py_min_list_spec lengths Hne) as [Hlo_in Hlo].
  destruct (py_max_list_spec lengths Hne) as [Hhi_in Hhi].
  exists (py_min_list lengths), (py_max_list lengths).
  split; [exact Hlo_in|]. split; [exact Hhi_in|]. split; [auto|].
  rewrite Forall_forall in Hall.
  pose proof (mean_between lengths _ _ Hne (fun x Hx => conj (Hlo x Hx) (Hhi x Hx)))
    as [Hm1 Hm2].
  unfold mean in Hm1, Hm2.
  rewrite <- (round1_fixes_one_decimal (py_min_list lengths))
    by (apply Hall, Hlo_in).
  rewrite <- (round1_fixes_one_decimal (py_max_list lengths))
    by (apply Hall, Hhi_in).
  split; apply round1_mono; assumption.
Qed.

Lemma reported_average_within_lengths_witness :
  measure_leaf_length no_image None card_ordered two_leaves =
    Ok response_two_leaves /\
  exists lo hi,
    In lo [15; 17.2] /\ In hi [15; 17.2] /\ lo <= 16.1 <= hi.
Proof.
  destruct (reported_average_within_lengths no_image None card_ordered
              two_leaves response_two_leaves measure_two_leaves)
    as (_ & _ & lo & hi & Hlo & Hhi & _ & Havg).
  split; [exact measure_two_leaves|].
  exists lo, hi. split; [exact Hlo|]. split; [exact Hhi|exact Havg].
Defined.

(** ** Two requests that agree on what the handler reads *)


Section MeasureExt.
Context {image matrix contour : Type} {cv : OpenCV image matrix contour}.

End MeasureExt.

(** ** Similarities of the picture *)







(** ** When measure_leaf_length succeeds *)

Section MeasureSpec.
Context {image matrix contour : Type} {cv : OpenCV image matrix contour}.

Lemma crop_step_ok (img : option image) (crop : option (list point)) :
  (match crop with
   | Some crop_data =>
       if negb (Nat.eqb (length crop_data) 4) then Err CropQuadCount
       else match img with
            | None => Err ImageDecodeFailed
            | Some im => _ <- apply_quad_warp im crop_data ;; Ok tt
            end
   | None => Ok tt
   end) = Ok tt <-> crop_accepted img crop.
Proof.
  destruct crop as [crop_data|]; cbn [crop_accepted]; [|tauto].
  destruct (Nat.eqb (length crop_data) 4) eqn:Hlen; cbn [negb].
  - apply Nat.eqb_eq in Hlen. destruct img as [im|].
    + unfold apply_quad_warp, order_points. rewrite Hlen. cbn [Nat.eqb bind].
      split; [intros _; split; [reflexivity|discriminate]|reflexivity].
    + split; [discriminate|]. intros [_ H]. now contradiction H.
  - apply Nat.eqb_neq in Hlen. split; [discriminate|tauto].
Qed.

Lemma measure_leaf_length_spec
    (img : option image) (crop : option (list point))
    (card : list point) (leaves : list leaf) (r : response) :
  measure_leaf_length img crop card leaves = Ok r <->
  length card = 4%nat /\ (1 <= length leaves <= 3)%nat /\
  Forall well_formed_leaf leaves /\ crop_accepted img crop /\
  row card 0 <> row card 1 /\
  r = assessment_of
        (map (fun l => round1 (pixel_distance l /
                (distance (row card 0) (row card 1) / CARD_WIDTH_MM) / 10))
             leaves).
Proof.
  pose proof (crop_step_ok img crop) as Hcrop.
  pose proof (validate_leaves_ok leaves 0) as Hval.
  fold well_formed_leaf in Hval.
  unfold measure_leaf_length, assessment_of.
  replace 10.0 with 10 by lra.
  destruct (Nat.eqb (length card) 4) eqn:Hc; cbn [negb].
  2:{ apply Nat.eqb_neq in Hc. split; [discriminate|tauto]. }
  apply Nat.eqb_eq in Hc.
  destruct (Nat.ltb_spec (length leaves) 1) as [H1|H1]; cbn [orb].
  { split; [discriminate|lia]. }
  destruct (Nat.ltb_spec 3 (length leaves)) as [H3|H3].
  { split; [discriminate|lia]. }
  destruct (validate_leaves 0 leaves) as [[]|e]; cbn [bind].
  2:{ split; [discriminate|]. intros (_ & _ & Hwf & _).
      apply Hval in Hwf. discriminate. }
  match type of Hcrop with
  | ?c = _ <-> _ => destruct c as [[]|e]
  end; cbn [bind].
  2:{ split; [discriminate|]. intros (_ & _ & _ & Ha & _).
      apply Hcrop in Ha. discriminate. }
  pose proof (distance_nonneg (row card 0) (row card 1)) as Hd.
  destruct (Rle_dec _ 0) as [Hle|Hgt].
  - split; [discriminate|]. intros (_ & _ & _ & _ & Hne & _).
    apply distance_pos in Hne.
    assert (0 < distance (row card 0) (row card 1) / CARD_WIDTH_MM)
      by (apply Rdiv_lt_0_compat; [exact Hne|unfold CARD_WIDTH_MM; lra]).
    lra.
  - destruct (confidence_of _ _) as [cs msg]. cbn [fst snd]. split.
    + intros H. injection H as <-.
      repeat split; try tauto; try lia.
      intros E. rewrite E in Hgt. apply Hgt.
      unfold distance. replace ((px (row card 1) - px (row card 1)) ^ 2 +
        (py (row card 1) - py (row card 1)) ^ 2) with 0 by ring.
      rewrite sqrt_0. unfold CARD_WIDTH_MM. lra.
    + intros (_ & _ & _ & _ & _ & ->). reflexivity.
Qed.
End MeasureSpec.

(** X1.  [measure_leaf_length] answers with a response only when the
    request has 4 card corners, 1 to 3 leaves, at least 3 points on every
    traced curve, no crop or else 4 crop points with an image that decodes,
    and two distinct points as its first two card corners.  For a request
    without crop whose marked points are all on the pixel grid of an image
    of at most 65536 pixels a side, where no square overflows or
    underflows, these conditions are also sufficient. *)
Theorem measure_leaf_length_succeeds_only_if
    {image matrix contour : Type} {cv : OpenCV image matrix contour}
    (img : option image) (crop : option (list point))
    (card : list point) (leaves : list leaf) :
  ((exists r, measure_leaf_length img crop card leaves = Ok r) ->
   length card = 4%nat /\ (1 <= length leaves <= 3)%nat /\
   Forall well_formed_leaf leaves /\ crop_accepted img crop /\
   row card 0 <> row card 1) /\
  (crop = None ->
   Forall (on_pixel_grid 65536) card ->
   Forall (fun l => Forall (on_pixel_grid 65536) (leaf_points l)) leaves ->
   length card = 4%nat -> (1 <= length leaves <= 3)%nat ->
   Forall well_formed_leaf leaves -> row card 0 <> row card 1 ->
   exists r, measure_leaf_length img crop card leaves = Ok r).
Proof.
  split.
  - intros [r Hr]. apply measure_leaf_length_spec in Hr. tauto.
  - intros -> _ _ Hc Hn Hwf Hne. eexists. apply measure_leaf_length_spec.
    repeat split; try assumption; apply Hn.
Qed.

Lemma measure_leaf_length_succeeds_only_if_witness :
  Forall (on_pixel_grid 65536) card_ordered /\
  Forall (fun l => Forall (on_pixel_grid 65536) (leaf_points l)) two_leaves /\
  length card_ordered = 4%nat /\ (1 <= length two_leaves <= 3)%nat /\
  Forall well_formed_leaf two_leaves /\
  row card_ordered 0 <> row card_ordered 1 /\
  exists r, measure_leaf_length no_image None card_ordered two_leaves = Ok r.
Proof.
  assert (Hcard : Forall (on_pixel_grid 65536) card_ordered).
  { unfold card_ordered.
    repeat constructor;
      [exists 0%Z, 0%Z|exists 856%Z, 0%Z|exists 856%Z, 540%Z|exists 0%Z, 540%Z];
      (split; [lia|split; [lia|reflexivity]]). }
  assert (Hleaves : Forall (fun l => Forall (on_pixel_grid 65536) (leaf_points l))
                      two_leaves).
  { unfold two_leaves, traced_curve.
    constructor; [|constructor; [|constructor]]; cbn [leaf_points].
    - repeat constructor;
        [exists 0%Z, 0%Z|exists 300%Z, 400%Z|exists 300%Z, 1400%Z];
        (split; [lia|split; [lia|reflexivity]]).
    - repeat constructor;
        [exists 0%Z, 0%Z|exists 1724%Z, 0%Z];
        (split; [lia|split; [lia|reflexivity]]). }
  assert (Hn : (1 <= length two_leaves <= 3)%nat) by (cbn; lia).
  assert (Hwf : Forall well_formed_leaf two_leaves).
  { repeat constructor. }
  assert (Hne : row card_ordered 0 <> row card_ordered 1).
  { cbn. intros H. injection H. lra. }
  split; [exact Hcard|]. split; [exact Hleaves|]. split; [reflexivity|].
  split; [exact Hn|]. split; [exact Hwf|]. split; [exact Hne|].
  exact (proj2 (measure_leaf_length_succeeds_only_if no_image None card_ordered
                  two_leaves) eq_refl Hcard Hleaves eq_refl Hn Hwf Hne).
Defined.

(** ** Which error measure_leaf_length reports *)

Lemma validate_leaves_first_offender
    (before after : list leaf) (points : list point) (i : nat) :
  Forall well_formed_leaf before -> (length points < 3)%nat ->
  validate_leaves i (before ++ LeafPoints points :: after) =
  Err (LeafTooFewPoints (i + length before + 1)).
Proof.
  intros Hwf Hshort. revert i.
  induction Hwf as [|l t Hl Ht IH]; intros i; cbn [app validate_leaves length].
  - apply Nat.ltb_lt in Hshort. rewrite Hshort. do 2 f_equal. lia.
  - destruct l as [pts|b tp].
    + cbn [well_formed_leaf] in Hl.
      destruct (Nat.ltb_spec (length pts) 3); [lia|].
      rewrite IH. do 2 f_equal. lia.
    + rewrite IH. do 2 f_equal. lia.
Qed.

(** X2.  The checks of [measure_leaf_length] are made in a fixed order
    and the first one that fails decides the error: the number of card
    corners, then the number of leaves, then the first traced curve with
    fewer than 3 points (reported with its 1-based position), then the
    number of crop points, then the decoding of the image (needed only with
    a crop), and last the calibration, which fails when the first two card
    corners coincide. *)
Theorem measure_leaf_length_first_error
    {image matrix contour : Type} {cv : OpenCV image matrix contour}
    (img : option image) (crop : option (list point))
    (card : list point) (leaves : list leaf) :
  (length card <> 4%nat ->
   measure_leaf_length img crop card leaves = Err CardCornersCount) /\
  (length card = 4%nat -> ~ (1 <= length leaves <= 3)%nat ->
   measure_leaf_length img crop card leaves = Err LeafCountOutOfRange) /\
  (length card = 4%nat -> (1 <= length leaves <= 3)%nat ->
   forall before points after,
     leaves = before ++ LeafPoints points :: after ->
     Forall well_formed_leaf before -> (length points < 3)%nat ->
     measure_leaf_length img crop card leaves =
     Err (LeafTooFewPoints (length before + 1))) /\
  (length card = 4%nat -> (1 <= length leaves <= 3)%nat ->
   Forall well_formed_leaf leaves ->
   forall crop_data, crop = Some crop_data ->
     (length crop_data <> 4%nat ->
      measure_leaf_length img crop card leaves = Err CropQuadCount) /\
     (length crop_data = 4%nat -> img = None ->
      measure_leaf_length img crop card leaves = Err ImageDecodeFailed)) /\
  (length card = 4%nat -> (1 <= length leaves <= 3)%nat ->
   Forall well_formed_leaf leaves -> crop_accepted img crop ->
   row card 0 = row card 1 ->
   measure_leaf_length img crop card leaves = Err InvalidCardCalibration).
Proof.
  unfold measure_leaf_length.
  split; [intros Hc; apply Nat.eqb_neq in Hc; now rewrite Hc|].
  split.
  { intros Hc Hn. rewrite Hc. cbn [Nat.eqb negb].
    destruct (Nat.ltb_spec (length leaves) 1), (Nat.ltb_spec 3 (length leaves));
      cbn [orb]; try reflexivity. lia. }
  assert (Hcount : (1 <= length leaves <= 3)%nat ->
            (Nat.ltb (length leaves) 1 || Nat.ltb 3 (length leaves))%bool = false).
  { intros [H1 H3]. apply Nat.ltb_ge in H1, H3. now rewrite H1, H3. }
  split.
  { intros Hc Hn before points after E Hwf Hshort.
    rewrite Hc, (Hcount Hn). cbn [Nat.eqb negb].
    rewrite E at 1. rewrite validate_leaves_first_offender by assumption.
    reflexivity. }
  split.
  { intros Hc Hn Hwf crop_data ->.
    rewrite Hc, (Hcount Hn). cbn [Nat.eqb negb].
    rewrite (proj2 (validate_leaves_ok leaves 0) Hwf). cbn [bind].
    split.
    - intros Hq. apply Nat.eqb_neq in Hq. now rewrite Hq.
    - intros Hq ->. now rewrite Hq. }
  intros Hc Hn Hwf Hcrop Hsame.
  rewrite Hc, (Hcount Hn). cbn [Nat.eqb negb].
  rewrite (proj2 (validate_leaves_ok leaves 0) Hwf). cbn [bind].
  rewrite (proj2 (crop_step_ok img crop) Hcrop). cbn [bind].
  rewrite Hsame.
  destruct (Rle_dec _ 0) as [_|Hgt]; [reflexivity|].
  exfalso. apply Hgt. unfold distance.
  replace ((px (row card 1) - px (row card 1)) ^ 2 +
           (py (row card 1) - py (row card 1)) ^ 2) with 0 by ring.
  rewrite sqrt_0. unfold CARD_WIDTH_MM. lra.
Qed.

Lemma measure_leaf_length_first_error_witness :
  length card_ordered = 4%nat /\
  (length [mkPoint 0 0; mkPoint 5 5] < 3)%nat /\
  measure_leaf_length no_image None card_ordered
    ([LeafBaseTip (mkPoint 0 0) (mkPoint 9 9)] ++
     LeafPoints [mkPoint 0 0; mkPoint 5 5] :: []) =
  Err (LeafTooFewPoints 2).
Proof.
  split; [reflexivity|]. split; [cbn; lia|].
  destruct (measure_leaf_length_first_error no_image None card_ordered
              ([LeafBaseTip (mkPoint 0 0) (mkPoint 9 9)] ++
               LeafPoints [mkPoint 0 0; mkPoint 5 5] :: []))
    as (_ & _ & H & _).
  apply (H eq_refl ltac:(cbn; lia)
           [LeafBaseTip (mkPoint 0 0) (mkPoint 9 9)]
           [mkPoint 0 0; mkPoint 5 5] [] eq_refl).
  - repeat constructor.
  - cbn. lia.
Defined.

(** ** The order of the leaves *)

Lemma py_sum_perm (l l' : list R) : Permutation l l' -> py_sum l = py_sum l'.
Proof.
  induction 1 as [|x l l' _ IH|x y l|l l' l'' _ IH1 _ IH2].
  - reflexivity.
  - rewrite !py_sum_cons, IH. reflexivity.
  - rewrite !py_sum_cons. ring.
  - now rewrite IH1.
Qed.

Lemma std_dev_about_perm (m : R) (l l' : list R) :
  Permutation l l' -> std_dev_about m l = std_dev_about m l'.
Proof.
  intros H. unfold std_dev_about.
  rewrite (py_sum_perm _ _ (Permutation_map _ H)), (Permutation_length H).
  reflexivity.
Qed.

Lemma confidence_of_perm (avg : R) (l l' : list R) :
  Permutation l l' -> confidence_of l avg = confidence_of l' avg.
Proof.
  intros H. unfold confidence_of.
  now rewrite (std_dev_about_perm _ _ _ H), (Permutation_length H).
Qed.

(** X7.  Listing the same leaves in another order permutes the reported
    lengths and changes nothing else: the average, the stage, the
    confidence and the guidance message are the same. *)
Theorem leaf_order_irrelevant
    {image matrix contour : Type} {cv : OpenCV image matrix contour}
    (img : option image) (crop : option (list point))
    (card : list point) (leaves leaves' : list leaf) (r : response) :
  Permutation leaves leaves' ->
  measure_leaf_length img crop card leaves = Ok r ->
  exists r',
    measure_leaf_length img crop card leaves' = Ok r' /\
    Permutation (leaf_lengths_cm r) (leaf_lengths_cm r') /\
    avg_leaf_length_cm r' = avg_leaf_length_cm r /\
    stage r' = stage r /\
    confidence_status r' = confidence_status r /\
    retake_message r' = retake_message r.
Proof.
  intros Hp Hr. apply measure_leaf_length_spec in Hr.
  destruct Hr as (Hc & Hn & Hwf & Hcrop & Hne & ->).
  eexists. split.
  - apply measure_leaf_length_spec.
    split; [exact Hc|]. split; [now rewrite <- (Permutation_length Hp)|].
    split; [exact (Permutation_Forall Hp Hwf)|].
    split; [exact Hcrop|]. split; [exact Hne|reflexivity].
  - set (f := fun l => round1 _).
    pose proof (Permutation_map f Hp) as Hpl.
    unfold assessment_of.
    cbn [leaf_lengths_cm avg_leaf_length_cm stage confidence_status
         retake_message].
    rewrite <- (py_sum_perm _ _ Hpl), <- (Permutation_length Hpl).
    rewrite <- (confidence_of_perm _ _ _ Hpl).
    repeat split. exact Hpl.
Qed.

Lemma leaf_order_irrelevant_witness :
  Permutation two_leaves (rev two_leaves) /\
  measure_leaf_length no_image None card_ordered two_leaves =
    Ok response_two_leaves /\
  exists r',
    measure_leaf_length no_image None card_ordered (rev two_leaves) = Ok r' /\
    avg_leaf_length_cm r' = 16.1 /\ stage r' = NOT_MATURE /\
    confidence_status r' = HIGH.
Proof.
  assert (Hp : Permutation two_leaves (rev two_leaves))
    by apply Permutation_rev.
  split; [exact Hp|]. split; [exact measure_two_leaves|].
  destruct (leaf_order_irrelevant no_image None card_ordered two_leaves
              (rev two_leaves) response_two_leaves Hp measure_two_leaves)
    as (r' & Hr' & _ & Ha & Hs & Hcs & _).
  exists r'. split; [exact Hr'|]. split; [exact Ha|]. split; [exact Hs|exact Hcs].
Defined.

(** ** Longer leaves *)





(** ** Ordering an ordered quadrilateral again *)



(** ** The contours in another listing order *)

Section SortedUnique.
Context {A : Type} (key : A -> R).

Lemma sorted_desc_unique (l l' : list A) :
  Permutation l l' ->
  StronglySorted (fun c d => key d <= key c) l ->
  StronglySorted (fun c d => key d <= key c) l' ->
  (forall x y, In x l -> In y l -> key x = key y -> x = y) ->
  l = l'.
Proof.
  revert l'. induction l as [|a t IH]; intros l' Hp Hs Hs' Hinj.
  - apply Permutation_nil in Hp. now subst.
  - destruct l' as [|b t'].
    { apply Permutation_sym, Permutation_nil in Hp. discriminate. }
    inversion Hs as [|? ? Hst Ha]; subst.
    inversion Hs' as [|? ? Hst' Hb]; subst.
    rewrite Forall_forall in Ha, Hb.
    assert (Hba : In b (a :: t))
      by (apply (Permutation_in b (Permutation_sym Hp)); now left).
    assert (Hab : In a (b :: t')) by (apply (Permutation_in a Hp); now left).
    assert (E : a = b).
    { apply Hinj; [now left|exact Hba|].
      apply Rle_antisym.
      - destruct Hab as [->|Hat]; [lra|now apply Hb].
      - destruct Hba as [->|Hbt]; [lra|now apply Ha]. }
    subst b. f_equal. apply IH; auto.
    + now apply Permutation_cons_inv in Hp.
    + intros x y Hx Hy. apply Hinj; now right.
Qed.

Lemma NoDup_map_injective (l : list A) :
  NoDup (map key l) ->
  forall x y, In x l -> In y l -> key x = key y -> x = y.
Proof.
  induction l as [|a t IH]; intros Hnd x y Hx Hy E; [destruct Hx|].
  cbn [map] in Hnd. inversion Hnd as [|? ? Hnotin Hnd']; subst.
  destruct Hx as [<-|Hx], Hy as [<-|Hy]; auto.
  - exfalso. apply Hnotin. rewrite E. now apply in_map.
  - exfalso. apply Hnotin. rewrite <- E. now apply in_map.
Qed.

Lemma sorted_reverse_canonical (l l' : list A) :
  Permutation l l' -> NoDup (map key l) ->
  sorted_reverse key l = sorted_reverse key l'.
Proof.
  intros Hp Hnd.
  apply sorted_desc_unique.
  - eapply perm_trans; [apply Permutation_sym, sorted_reverse_perm|].
    eapply perm_trans; [exact Hp|apply sorted_reverse_perm].
  - apply sorted_reverse_sorted.
  - apply sorted_reverse_sorted.
  - intros x y Hx Hy. apply (NoDup_map_injective l Hnd).
    + exact (Permutation_in x (Permutation_sym (sorted_reverse_perm key l)) Hx).
    + exact (Permutation_in y (Permutation_sym (sorted_reverse_perm key l)) Hy).
Qed.
End SortedUnique.

Lemma detect_photo_with_card :
  detect_credit_card photo_with_card = Ok (Some detected_card).
Proof.
  change (detect_loop (firstn 10 (sorted_reverse contourArea
                                    (edge_contours photo_with_card)))
          = Ok (Some detected_card)).
  rewrite examined_photo_with_card.
  destruct (detect_loop_first [frame_outline] [] card_outline)
    as (q & Hq & Hrun).
  - intros d [<-|[]]. exact frame_outline_not_card_like.
  - exact card_outline_card_like.
  - rewrite order_points_card_outline in Hq. injection Hq as <-. exact Hrun.
Qed.

(** X10.  When no two contours have the same area, the result of
    [detect_credit_card] does not depend on the order in which the
    contours are listed: two images whose edge contours are the same up to
    order give the same result. *)
Theorem detect_credit_card_contour_order
    {image matrix contour : Type} {cv : OpenCV image matrix contour}
    (img img' : image) :
  Permutation (edge_contours img) (edge_contours img') ->
  NoDup (map contourArea (edge_contours img)) ->
  detect_credit_card img = detect_credit_card img'.
Proof.
  intros Hp Hnd.
  change (detect_loop (firstn 10 (sorted_reverse contourArea (edge_contours img)))
          = detect_loop (firstn 10 (sorted_reverse contourArea (edge_contours img')))).
  now rewrite (sorted_reverse_canonical contourArea _ _ Hp Hnd).
Qed.

Lemma detect_credit_card_contour_order_witness :
  Permutation (edge_contours photo_with_card)
              (edge_contours (Photo [frame_outline; card_outline])) /\
  NoDup (map contourArea (edge_contours photo_with_card)) /\
  detect_credit_card (Photo [frame_outline; card_outline]) =
  Ok (Some detected_card).
Proof.
  assert (Hp : Permutation (edge_contours photo_with_card)
                 (edge_contours (Photo [frame_outline; card_outline])))
    by apply perm_swap.
  assert (Hnd : NoDup (map contourArea (edge_contours photo_with_card))).
  { cbn. repeat constructor; cbn [In]; [|tauto].
    intros [H|[]]. lra. }
  split; [exact Hp|]. split; [exact Hnd|].
  rewrite <- (detect_credit_card_contour_order photo_with_card _ Hp Hnd).
  exact detect_photo_with_card.
Defined.

(** ** The rule-based assessment *)

Ltac decide_all :=
  repeat match goal with
         | |- context [Rlt_dec ?a ?b] => destruct (Rlt_dec a b)
         | |- context [Rle_dec ?a ?b] => destruct (Rle_dec a b)
         end.

Lemma readiness_score_range (avg std : R) :
  (20 <= harvest_readiness_score (calculate_quality_indicators avg std) <= 100)%Z.
Proof.
  unfold calculate_quality_indicators. decide_all;
    cbn [harvest_readiness_score]; lia.
Qed.

(** X11.  The harvest readiness score is always between 20 and 100, so
    the response model's bounds 0 and 100 can never reject it; it never
    decreases when the average length grows and never increases when the
    standard deviation grows. *)
Theorem readiness_score_bounded_and_monotone (avg avg' std std' : R) :
  (20 <= harvest_readiness_score (calculate_quality_indicators avg std) <= 100)%Z /\
  (avg <= avg' ->
   (harvest_readiness_score (calculate_quality_indicators avg std) <=
    harvest_readiness_score (calculate_quality_indicators avg' std))%Z) /\
  (std <= std' ->
   (harvest_readiness_score (calculate_quality_indicators avg std') <=
    harvest_readiness_score (calculate_quality_indicators avg std))%Z).
Proof.
  split; [apply readiness_score_range|]. split; intros H.
  - unfold calculate_quality_indicators.
    destruct (Rle_dec 30 avg), (Rle_dec 25 avg), (Rle_dec 20 avg),
             (Rle_dec 15 avg), (Rle_dec 30 avg'), (Rle_dec 25 avg'),
             (Rle_dec 20 avg'), (Rle_dec 15 avg');
      try (exfalso; lra);
      destruct (Rlt_dec std 2), (Rlt_dec 5 std);
      cbn [harvest_readiness_score]; lia.
  - unfold calculate_quality_indicators.
    destruct (Rle_dec 30 avg), (Rle_dec 25 avg), (Rle_dec 20 avg),
             (Rle_dec 15 avg);
      destruct (Rlt_dec std 2), (Rlt_dec 5 std), (Rlt_dec std' 2),
               (Rlt_dec 5 std');
      try (exfalso; lra); cbn [harvest_readiness_score]; lia.
Qed.

Lemma readiness_score_bounded_and_monotone_witness :
  22 <= 27 /\
  (harvest_readiness_score (calculate_quality_indicators 22 3) <=
   harvest_readiness_score (calculate_quality_indicators 27 3))%Z.
Proof.
  assert (H : 22 <= 27) by lra.
  split; [exact H|].
  exact (proj1 (proj2 (readiness_score_bounded_and_monotone 22 27 3 3)) H).
Defined.

(** X12.  The tiers of the assessment agree with one another and with the
    stage of the measuring endpoint: status "Ready", action "Harvest Now"
    and maturity level "Mature" hold exactly from 25 cm on, where the
    stage is MATURE; "Maturing" is the stage INTERMEDIATE and "Young" the
    stage NOT_MATURE; and the waiting time of the action matches the
    status below 25 cm. *)
Theorem assessment_tiers_agree (avg std : R) :
  let status := hs_status (calculate_harvest_status avg) in
  let quality := calculate_quality_indicators avg std in
  (status = Ready <-> 25 <= avg) /\
  (recommended_action quality = HarvestNow <-> 25 <= avg) /\
  (maturity_level quality = Mature <-> maturity_stage avg = MATURE) /\
  (maturity_level quality = Maturing <-> maturity_stage avg = INTERMEDIATE) /\
  (maturity_level quality = Young <-> maturity_stage avg = NOT_MATURE) /\
  (status = NearlyReady <-> recommended_action quality = Wait2to3Weeks) /\
  (status = NotReady <-> recommended_action quality = Wait4to6Weeks) /\
  (status = TooYoung <-> recommended_action quality = Wait8to12Weeks).
Proof.
  unfold calculate_harvest_status, calculate_quality_indicators,
    maturity_stage, L1, L2.
  destruct (Rle_dec 30 avg), (Rle_dec 25 avg), (Rle_dec 20 avg),
           (Rle_dec 18 avg), (Rle_dec 15 avg), (Rle_dec 25.0 avg),
           (Rle_dec 18.0 avg);
    try (exfalso; lra);
    destruct (Rlt_dec std 2), (Rlt_dec 5 std);
    cbn [hs_status recommended_action maturity_level];
    repeat split; intros; try reflexivity; try discriminate; try lra;
    try contradiction.
Qed.

Lemma round2_cents_times (c : Z) (n : nat) :
  round2 (IZR c / 100 * INR n) = IZR c / 100 * INR n.
Proof.
  rewrite INR_IZR_INZ.
  replace (IZR c / 100 * IZR (Z.of_nat n)) with (IZR (c * Z.of_nat n) / 100)
    by (rewrite mult_IZR; field).
  apply round2_fixes_cents.
Qed.

Lemma round2_cents (c : Z) (x : R) : x = IZR c / 100 -> round2 x = x.
Proof. intros ->. apply round2_fixes_cents. Qed.

(** X13.  The market estimate is consistent: the price range is positive
    with minimum at most maximum, each estimated revenue is exactly its
    price per leaf times the number of leaves (the rounding to cents
    changes nothing), so the minimum revenue is at most the maximum, and
    prices never fall when the average length grows. *)
Theorem market_insights_consistent (avg avg' : R) (n : nat) :
  let m := calculate_market_insights avg n in
  let m' := calculate_market_insights avg' n in
  0 < price_per_leaf_min m <= price_per_leaf_max m /\
  estimated_revenue_min m = price_per_leaf_min m * INR n /\
  estimated_revenue_max m = price_per_leaf_max m * INR n /\
  estimated_revenue_min m <= estimated_revenue_max m /\
  (avg <= avg' ->
   price_per_leaf_min m <= price_per_leaf_min m' /\
   price_per_leaf_max m <= price_per_leaf_max m').
Proof.
  assert (P300 : round2 3.00 = 3.00) by (apply (round2_cents 300); lra).
  assert (P450 : round2 4.50 = 4.50) by (apply (round2_cents 450); lra).
  assert (P250 : round2 2.50 = 2.50) by (apply (round2_cents 250); lra).
  assert (P350 : round2 3.50 = 3.50) by (apply (round2_cents 350); lra).
  assert (P180 : round2 1.80 = 1.80) by (apply (round2_cents 180); lra).
  assert (P120 : round2 1.20 = 1.20) by (apply (round2_cents 120); lra).
  assert (P050 : round2 0.50 = 0.50) by (apply (round2_cents 50); lra).
  assert (R300 : round2 (3.00 * INR n) = 3.00 * INR n).
  { replace 3.00 with (IZR 300 / 100) by lra. apply round2_cents_times. }
  assert (R450 : round2 (4.50 * INR n) = 4.50 * INR n).
  { replace 4.50 with (IZR 450 / 100) by lra. apply round2_cents_times. }
  assert (R250 : round2 (2.50 * INR n) = 2.50 * INR n).
  { replace 2.50 with (IZR 250 / 100) by lra. apply round2_cents_times. }
  assert (R350 : round2 (3.50 * INR n) = 3.50 * INR n).
  { replace 3.50 with (IZR 350 / 100) by lra. apply round2_cents_times. }
  assert (R180 : round2 (1.80 * INR n) = 1.80 * INR n).
  { replace 1.80 with (IZR 180 / 100) by lra. apply round2_cents_times. }
  assert (R120 : round2 (1.20 * INR n) = 1.20 * INR n).
  { replace 1.20 with (IZR 120 / 100) by lra. apply round2_cents_times. }
  assert (R050 : round2 (0.50 * INR n) = 0.50 * INR n).
  { replace 0.50 with (IZR 50 / 100) by lra. apply round2_cents_times. }
  pose proof (pos_INR n) as Hn.
  unfold calculate_market_insights.
  destruct (Rle_dec 30 avg), (Rle_dec 25 avg), (Rle_dec 20 avg),
           (Rle_dec 15 avg);
    try (exfalso; lra);
    cbn [price_per_leaf_min price_per_leaf_max estimated_revenue_min
         estimated_revenue_max];
    rewrite ?P300, ?P450, ?P250, ?P350, ?P180, ?P120, ?P050,
            ?R300, ?R450, ?R250, ?R350, ?R180, ?R120, ?R050;
    (split; [lra|]); (split; [reflexivity|]); (split; [reflexivity|]);
    (split; [nra|]); intros Hle;
    destruct (Rle_dec 30 avg'), (Rle_dec 25 avg'), (Rle_dec 20 avg'),
             (Rle_dec 15 avg');
    try (exfalso; lra);
    cbn [price_per_leaf_min price_per_leaf_max];
    rewrite ?P300, ?P450, ?P250, ?P350, ?P180, ?P120, ?P050; lra.
Qed.

Lemma market_insights_consistent_witness :
  22 <= 27 /\
  price_per_leaf_min (calculate_market_insights 22 3) <=
  price_per_leaf_min (calculate_market_insights 27 3) /\
  estimated_revenue_min (calculate_market_insights 22 3) =
  price_per_leaf_min (calculate_market_insights 22 3) * INR 3.
Proof.
  assert (H : 22 <= 27) by lra.
  destruct (market_insights_consistent 22 27 3) as (_ & Hrev & _ & _ & Hmono).
  split; [exact H|]. split; [exact (proj1 (Hmono H))|exact Hrev].
Defined.

(** X14.  [generate_recommendations] returns the five recommendations of
    the size tier, followed by the advice on consistent care exactly when
    the readiness score is below 70.  With the quality indicators of the
    same average this means: from 25 cm on always five, below 20 cm always
    six, and between 20 and 25 cm six exactly when the standard deviation
    exceeds 5. *)
Theorem recommendations_count (avg std : R) :
  let quality := calculate_quality_indicators avg std in
  let recs := generate_recommendations avg quality in
  (In FocusOnConsistentCare recs <->
   (harvest_readiness_score quality < 70)%Z) /\
  (length recs = 5%nat \/ length recs = 6%nat) /\
  (length recs = 6%nat <-> In FocusOnConsistentCare recs) /\
  (25 <= avg -> length recs = 5%nat) /\
  (avg < 20 -> length recs = 6%nat) /\
  (20 <= avg < 25 -> (length recs = 6%nat <-> 5 < std)).
Proof.
  unfold generate_recommendations, calculate_quality_indicators.
  destruct (Rle_dec 30 avg), (Rle_dec 25 avg), (Rle_dec 20 avg),
           (Rle_dec 15 avg);
    try (exfalso; lra);
    destruct (Rlt_dec std 2), (Rlt_dec 5 std);
    try (exfalso; lra);
    cbn [harvest_readiness_score Z.ltb Z.min Z.max Z.add Z.sub Z.compare
         Pos.compare Pos.compare_cont Z.opp Z.pos_sub Pos.add Pos.succ
         Pos.pred_double Pos.add_carry Z.double Z.succ_double Z.pred_double
         app length In];
    vm_compute Z.ltb;
    cbn [app length In];
    repeat split; intros;
    repeat match goal with
           | H : _ \/ _ |- _ => destruct H
           | H : False |- _ => destruct H
           end;
    try discriminate; try lia; try lra; try tauto.
Qed.

Lemma recommendations_count_witness :
  20 <= 22 < 25 /\ 5 < 6 /\
  length (generate_recommendations 22 (calculate_quality_indicators 22 6)) =
  6%nat.
Proof.
  assert (H : 20 <= 22 < 25) by lra.
  assert (H5 : 5 < 6) by lra.
  split; [exact H|]. split; [exact H5|].
  destruct (recommendations_count 22 6) as (_ & _ & _ & _ & _ & Hmid).
  exact (proj2 (Hmid H) H5).
Defined.

(** ** assess_harvest *)

Lemma std_dev_single (x : R) : std_dev_about (py_sum [x] / INR 1) [x] = 0.
Proof.
  unfold std_dev_about. cbn [map length INR].
  rewrite !py_sum_cons, !py_sum_nil.
  replace ((x - (x + 0) / 1) ^ 2 + 0) with 0 by field.
  replace (0 / 1) with 0 by field. apply sqrt_0.
Qed.

(** X16.  A single measurement has standard deviation 0, so it always
    receives the consistency bonus of 5 points: the readiness score of a
    one-leaf assessment is 35, 55, 75, 90 or 100, and its minimum, average
    and maximum length are the same number. *)
Theorem assess_harvest_single_measurement (m : LeafMeasurement) :
  exists resp,
    assess_harvest [m] = Response resp /\
    leaf_count resp = 1%nat /\
    std_deviation resp = 0 /\
    min_length_cm resp = round2 (length_cm m) /\
    avg_length_cm resp = round2 (length_cm m) /\
    max_length_cm resp = round2 (length_cm m) /\
    In (harvest_readiness_score (quality_indicators resp))
       [35; 55; 75; 90; 100]%Z.
Proof.
  eexists. split; [reflexivity|].
  cbn [map length Nat.eqb leaf_count std_deviation min_length_cm
       avg_length_cm max_length_cm quality_indicators py_max_list
       py_min_list fold_left].
  rewrite std_dev_single.
  assert (E : py_sum [length_cm m] / INR 1 = length_cm m).
  { rewrite py_sum_cons, py_sum_nil. cbn [INR]. field. }
  rewrite E.
  split; [reflexivity|]. split.
  { unfold round2. rewrite Rmult_0_l, (round_half_even_eq 0 0) by lra. lra. }
  split; [reflexivity|]. split; [reflexivity|]. split; [reflexivity|].
  unfold calculate_quality_indicators.
  destruct (Rle_dec 30 (length_cm m)), (Rle_dec 25 (length_cm m)),
           (Rle_dec 20 (length_cm m)), (Rle_dec 15 (length_cm m));
    try (exfalso; lra);
    destruct (Rlt_dec 0 2); try (exfalso; lra);
    cbn [harvest_readiness_score In]; vm_compute; tauto.
Qed.

(** ** The status codes of the upload handlers *)

Section HandlerFacts.
Context {image matrix contour : Type} {cv : OpenCV image matrix contour}.

Lemma apply_quad_warp_four (img : image) (pts : list point) :
  length pts = 4%nat -> exists out, apply_quad_warp img pts = Ok out.
Proof.
  intros H. unfold apply_quad_warp, order_points. rewrite H.
  cbn [Nat.eqb bind]. now eexists.
Qed.

Lemma measure_decode_error_iff
    (img : option image) (crop : option (list point))
    (card : list point) (leaves : list leaf) :
  measure_leaf_length img crop card leaves = Err ImageDecodeFailed <->
  length card = 4%nat /\ (1 <= length leaves <= 3)%nat /\
  Forall well_formed_leaf leaves /\
  exists crop_data, crop = Some crop_data /\ length crop_data = 4%nat /\
                    img = None.
Proof.
  pose proof (validate_leaves_ok leaves 0) as Hval.
  fold well_formed_leaf in Hval.
  unfold measure_leaf_length.
  destruct (Nat.eqb (length card) 4) eqn:Hc; cbn [negb].
  2:{ apply Nat.eqb_neq in Hc. split; [discriminate|tauto]. }
  apply Nat.eqb_eq in Hc.
  destruct (Nat.ltb_spec (length leaves) 1) as [H1|H1]; cbn [orb].
  { split; [discriminate|lia]. }
  destruct (Nat.ltb_spec 3 (length leaves)) as [H3|H3].
  { split; [discriminate|lia]. }
  destruct (validate_leaves 0 leaves) as [[]|e] eqn:Hv; cbn [bind].
  2:{ split.
      - intros H. injection H as ->. exfalso.
        clear Hval H1 H3. revert Hv. generalize 0%nat.
        induction leaves as [|l t IH]; intros i; cbn [validate_leaves];
          [discriminate|].
        destruct l as [pts|b tp]; [|apply IH].
        destruct (Nat.ltb (length pts) 3); [discriminate|apply IH].
      - intros (_ & _ & Hwf & _). apply Hval in Hwf. discriminate. }
  assert (Hwf : Forall well_formed_leaf leaves) by now apply Hval.
  destruct crop as [crop_data|]; cbn [bind].
  - destruct (Nat.eqb (length crop_data) 4) eqn:Hq; cbn [negb bind].
    + apply Nat.eqb_eq in Hq. destruct img as [im|]; cbn [bind].
      * destruct (apply_quad_warp_four im crop_data Hq) as [out ->].
        cbn [bind]. split.
        -- destruct (Rle_dec _ 0); [discriminate|].
           destruct (confidence_of _ _). discriminate.
        -- intros (_ & _ & _ & c & E & _ & Himg). discriminate.
      * split; [intros _|reflexivity].
        repeat split; auto. now exists crop_data.
    + apply Nat.eqb_neq in Hq. split; [discriminate|].
      intros (_ & _ & _ & c & E & Hlen & _). injection E as <-. contradiction.
  - split.
    + destruct (Rle_dec _ 0); [discriminate|].
      destruct (confidence_of _ _). discriminate.
    + intros (_ & _ & _ & c & E & _). discriminate.
Qed.

Lemma handle_exceptions_status {A : Type} (o : outcome A) (s : nat) :
  handle_exceptions o = HTTPException s -> s = 400%nat \/ s = 500%nat.
Proof.
  destruct o; cbn [handle_exceptions]; intros H; try discriminate;
    injection H as <-; auto.
Qed.
End HandlerFacts.

(** X17.  The measuring handler answers only with a response, status 400
    or status 500.  It answers 500, not 400, for a content type that is not
    allowed, for an upload above 10 MB, and for an image that does not
    decode when a crop of 4 points is given and all earlier checks pass:
    these are raised as [HTTPException] with status 400 inside the [try]
    and caught by its [except Exception].  On an allowed upload of at most
    10 MB it answers 400 for every [ValueError] of the body, among them
    card corners other than 4 and, with 4 card corners, leaves other than 1
    to 3.  It answers with a response only for an allowed upload of at most
    10 MB. *)
Theorem measure_length_status
    {image matrix contour : Type} {cv : OpenCV image matrix contour}
    (content_type : Upload.content_type) (size : Z) (img : option image)
    (crop : option (list point)) (card : list point) (leaves : list leaf) :
  let answer := measure_length content_type size img crop card leaves in
  (forall s, answer = HTTPException s -> s = 400%nat \/ s = 500%nat) /\
  (Upload.allowed content_type = false -> answer = HTTPException 500) /\
  ((Upload.MAX_UPLOAD_SIZE < size)%Z -> answer = HTTPException 500) /\
  (length card = 4%nat -> (1 <= length leaves <= 3)%nat ->
   Forall well_formed_leaf leaves ->
   (exists crop_data, crop = Some crop_data /\ length crop_data = 4%nat) ->
   img = None -> answer = HTTPException 500) /\
  (Upload.allowed content_type = true -> (size <= Upload.MAX_UPLOAD_SIZE)%Z ->
   (forall e, measure_leaf_length img crop card leaves = Err e ->
              e <> ImageDecodeFailed -> answer = HTTPException 400) /\
   (length card <> 4%nat -> answer = HTTPException 400) /\
   (length card = 4%nat -> ~ (1 <= length leaves <= 3)%nat ->
    answer = HTTPException 400)) /\
  (forall r, answer = Response r ->
             Upload.allowed content_type = true /\
             (size <= Upload.MAX_UPLOAD_SIZE)%Z).
Proof.
  intros answer. split; [intros s; apply handle_exceptions_status|].
  pose proof (measure_decode_error_iff img crop card leaves) as Hdec.
  unfold answer, measure_length, measure_length_try. clear answer.
  destruct (Upload.allowed content_type) eqn:Ha; cbn [negb handle_exceptions].
  2:{ repeat split; intros; try reflexivity; discriminate. }
  destruct (Z.ltb_spec Upload.MAX_UPLOAD_SIZE size) as [Hs|Hs];
    cbn [handle_exceptions].
  { repeat split; intros; try reflexivity; try discriminate; lia. }
  assert (Hval : forall e,
            measure_leaf_length img crop card leaves = Err e ->
            e <> ImageDecodeFailed ->
            handle_exceptions
              match measure_leaf_length img crop card leaves with
              | Ok r => Return r
              | Err ImageDecodeFailed => RaiseHTTP 400
              | Err e => RaiseValueError e
              end = HTTPException 400).
  { intros e He Hne. rewrite He.
    destruct e; try reflexivity. now contradiction Hne. }
  split; [discriminate|]. split; [intros; lia|]. split.
  { intros Hc Hn Hwf (crop_data & Ec & Hq) Himg.
    rewrite (proj2 Hdec); [reflexivity|].
    repeat split; try assumption; try apply Hn. now exists crop_data. }
  split.
  { intros _ _. split; [exact Hval|]. split.
    - intros Hc. apply (Hval CardCornersCount); [|discriminate].
      unfold measure_leaf_length. apply Nat.eqb_neq in Hc. now rewrite Hc.
    - intros Hc Hn. apply (Hval LeafCountOutOfRange); [|discriminate].
      unfold measure_leaf_length. rewrite Hc. cbn [Nat.eqb negb].
      destruct (Nat.ltb_spec (length leaves) 1) as [H1|H1]; [reflexivity|].
      destruct (Nat.ltb_spec 3 (length leaves)) as [H3|H3]; [reflexivity|].
      exfalso. apply Hn. lia. }
  intros r _. split; [reflexivity|exact Hs].
Qed.

Lemma measure_length_status_witness :
  Upload.allowed Upload.gif = false /\
  measure_length Upload.gif 1000 no_image None card_ordered two_leaves =
  HTTPException 500.
Proof.
  assert (H : Upload.allowed Upload.gif = false) by reflexivity.
  split; [exact H|].
  exact (proj1 (proj2 (measure_length_status Upload.gif 1000 no_image None
                         card_ordered two_leaves)) H).
Defined.

(** X18.  When [detect_card] answers with a response, the upload decoded
    and the detector ran on the picture itself or, with a crop of 4 points,
    on the picture warped to that crop.  The response reports success with
    confidence 0.85 and the four corners of the quadrilateral that
    [detect_credit_card] found there, in the order top-left, top-right,
    bottom-right, bottom-left, or it reports failure with confidence 0.0
    and no corners when the detector found none.  On an allowed upload of
    at most 10 MB that decodes, a crop of other than 4 points is answered
    400.  A content type that is not allowed, an upload above 10 MB and an
    image that does not decode are answered 500, not 400. *)
Theorem detect_card_answers
    {image matrix contour : Type} {cv : OpenCV image matrix contour}
    (content_type : Upload.content_type) (size : Z) (img : option image)
    (crop : option (list point)) :
  let answer := detect_card content_type size img crop in
  (forall resp,
     answer = Response resp ->
     exists im0 im : image,
       img = Some im0 /\
       (crop = None /\ im = im0 \/
        exists crop_data,
          crop = Some crop_data /\ length crop_data = 4%nat /\
          apply_quad_warp im0 crop_data = Ok im) /\
       ((exists q,
           detect_credit_card im = Ok (Some q) /\
           resp = {| success := true; card_corners := Some (corners q);
                     detection_confidence := 0.85;
                     message := CardDetected |}) \/
        (detect_credit_card im = Ok None /\
         resp = {| success := false; card_corners := None;
                   detection_confidence := 0.0;
                   message := CardNotDetected |}))) /\
  (Upload.allowed content_type = true -> (size <= Upload.MAX_UPLOAD_SIZE)%Z ->
   img <> None ->
   (exists crop_data, crop = Some crop_data /\ length crop_data <> 4%nat) ->
   answer = HTTPException 400) /\
  (Upload.allowed content_type = false -> answer = HTTPException 500) /\
  ((Upload.MAX_UPLOAD_SIZE < size)%Z -> answer = HTTPException 500) /\
  (img = None -> answer = HTTPException 500) /\
  (forall s, answer = HTTPException s -> s = 400%nat \/ s = 500%nat).
Proof.
  intros answer.
  assert (Hstatus : forall s, answer = HTTPException s ->
                              s = 400%nat \/ s = 500%nat)
    by (intros s; apply handle_exceptions_status).
  revert Hstatus. unfold answer. clear answer.
  unfold detect_card, detect_card_try. intros Hstatus.
  destruct (Upload.allowed content_type) eqn:Ha; cbn [negb handle_exceptions].
  2:{ repeat split; intros; try reflexivity; try discriminate.
      now apply Hstatus. }
  destruct (Z.ltb_spec Upload.MAX_UPLOAD_SIZE size) as [Hs|Hs];
    cbn [handle_exceptions].
  { repeat split; intros; try reflexivity; try discriminate; try lia.
    now apply Hstatus. }
  destruct img as [im0|]; cbn [handle_exceptions].
  2:{ repeat split; intros; try reflexivity; try discriminate.
      - now contradiction H1.
      - now apply Hstatus. }
  assert (Hdetect : forall im resp,
    handle_exceptions
      match detect_credit_card im with
      | Ok (Some detected_corners) =>
          Return {| success := true;
                    card_corners :=
                      Some [tl detected_corners; tr detected_corners;
                            br detected_corners; bl detected_corners];
                    detection_confidence := 0.85;
                    message := CardDetected |}
      | Ok None =>
          Return {| success := false; card_corners := None;
                    detection_confidence := 0.0;
                    message := CardNotDetected |}
      | Err e => RaiseValueError e
      end = Response resp ->
    (exists q,
       detect_credit_card im = Ok (Some q) /\
       resp = {| success := true; card_corners := Some (corners q);
                 detection_confidence := 0.85; message := CardDetected |}) \/
    (detect_credit_card im = Ok None /\
     resp = {| success := false; card_corners := None;
               detection_confidence := 0.0; message := CardNotDetected |})).
  { intros im resp. destruct (detect_credit_card im) as [[q|]|e];
      cbn [handle_exceptions]; intros H; [| |discriminate];
      injection H as <-; [left; now exists q|right; now split]. }
  split.
  { intros resp. destruct crop as [crop_data|].
    - destruct (Nat.eqb (length crop_data) 4) eqn:Hq; cbn [negb];
        [|discriminate].
      apply Nat.eqb_eq in Hq.
      destruct (apply_quad_warp im0 crop_data) as [im|e] eqn:Hw;
        [|discriminate].
      intros H. exists im0, im. split; [reflexivity|].
      split; [right; now exists crop_data|]. now apply Hdetect.
    - intros H. exists im0, im0. split; [reflexivity|].
      split; [now left|]. now apply Hdetect. }
  split.
  { intros _ _ _ (crop_data & -> & Hq).
    apply Nat.eqb_neq in Hq. now rewrite Hq. }
  split; [discriminate|]. split; [intros; lia|]. split; [discriminate|].
  exact Hstatus.
Qed.

Lemma detect_card_answers_witness :
  detect_card Upload.jpeg 1000 (Some photo_with_card) None =
    Response {| success := true;
                card_corners := Some (corners detected_card);
                detection_confidence := 0.85;
                message := CardDetected |} /\
  exists (im0 im : demo_image) (q : quad),
    Some photo_with_card = Some im0 /\ im = im0 /\
    detect_credit_card im = Ok (Some q) /\
    Some (corners detected_card) = Some (corners q).
Proof.
  assert (E : detect_card Upload.jpeg 1000 (Some photo_with_card) None =
    Response {| success := true;
                card_corners := Some (corners detected_card);
                detection_confidence := 0.85;
                message := CardDetected |}).
  { unfold detect_card, detect_card_try.
    change (Upload.allowed Upload.jpeg) with true. cbn [negb].
    change (Z.ltb Upload.MAX_UPLOAD_SIZE 1000) with false. cbv iota.
    rewrite detect_photo_with_card. reflexivity. }
  split; [exact E|].
  destruct (proj1 (detect_card_answers Upload.jpeg 1000
                     (Some photo_with_card) None) _ E)
    as (im0 & im & Him & [[_ Heq]|(c & Hc & _)] & Hd); [|discriminate Hc].
  destruct Hd as [(q & Hq & Hresp)|[_ Hresp]]; [|discriminate Hresp].
  exists im0, im, q. split; [exact Him|]. split; [exact Heq|].
  split; [exact Hq|]. exact (f_equal card_corners Hresp).
Defined.

(** ** From detection to measurement *)

Section DetectThenMeasure.
Context {image matrix contour : Type} {cv : OpenCV image matrix contour}.

End DetectThenMeasure.





(** ** Rounding and range of binary64 in the measuring handler *)

(** X21.  Where the floats decide.  Two leaves of 24.9 and 25.0 cm have
    the mean 24.95, whose binary64 value lies below the tie, so the average
    is reported as 24.9 and the stage is INTERMEDIATE, not MATURE.  A leaf
    of 1795 pixels at 10 pixels per millimetre, 17.95 cm, is reported as
    17.9 cm for the same reason.  A card whose first two corners are 1e200
    pixels apart makes [**] overflow: the handler answers status 500.  A
    card whose first two corners are 1e-200 pixels apart has a square that
    underflows to 0: the two corners are distinct, and the handler answers
    status 400 for an invalid card calibration. *)
Lemma binary64_rounding_and_range :
  Binary64.measure_leaf_length Binary64.card_856
    [Binary64.straight 2490; Binary64.straight 2500] =
    Binary64.Ok
      {| Binary64.leaf_lengths_cm := [24.9%float; 25%float];
         Binary64.avg_leaf_length_cm := 24.9;
         Binary64.stage := INTERMEDIATE;
         Binary64.confidence_status := HIGH;
         Binary64.retake_message := None |} /\
  Binary64.measure_leaf_length Binary64.card_856 [Binary64.straight 1795] =
    Binary64.Ok
      {| Binary64.leaf_lengths_cm := [17.9%float];
         Binary64.avg_leaf_length_cm := 17.9;
         Binary64.stage := NOT_MATURE;
         Binary64.confidence_status := LOW;
         Binary64.retake_message := Some OnlyOneLeaf |} /\
  Binary64.measure_leaf_length Binary64.card_huge [Binary64.straight 1795] =
    Binary64.Raise Binary64.OverflowError /\
  Binary64.handle_exceptions
    (Binary64.measure_leaf_length Binary64.card_huge [Binary64.straight 1795]) =
    HTTPException 500 /\
  Binary64.measure_leaf_length Binary64.card_tiny [Binary64.straight 1795] =
    Binary64.Raise (Binary64.ValueError InvalidCardCalibration) /\
  Binary64.handle_exceptions
    (Binary64.measure_leaf_length Binary64.card_tiny [Binary64.straight 1795]) =
    HTTPException 400.
Proof.
  split; [vm_compute; reflexivity|]. split; [vm_compute; reflexivity|].
  split; [vm_compute; reflexivity|]. split; [vm_compute; reflexivity|].
  split; vm_compute; reflexivity.
Qed.
